(** * Order placement and order listing of the library service

    A shallow embedding of the two handlers of the order router

      - [orderRouter.post("/order", ...)]   (the spec's [placeOrder])
      - [orderRouter.get("/orders", ...)]   (the spec's [listOrdersEnriched])

    together with [orderSchema] of [models/order.model.js] and the
    Mongoose calls the handlers go through.  A handler is a computation
    over the three collections that either returns a value or throws; the
    [try]/[catch] of each handler turns a thrown error into a 500
    response.  The request body is the one the API documentation
    describes: [user] a string, [books] an array of strings.

    The handlers of the book router and of the user router follow, down
    to what they write on the response object, with the GET routes of the
    book router in registration order; [bcrypt] is a parameter. *)

From Stdlib Require Import List String Ascii ZArith Lia Bool Arith Permutation.
Import ListNotations.

Local Open Scope string_scope.
Local Open Scope list_scope.
Local Open Scope nat_scope.

(* ================================================================== *)
(** * Identifiers *)
(* ================================================================== *)

(** An [ObjectId] is kept in its canonical text form: 24 lower-case
    hexadecimal digits ([ObjectId.prototype.toHexString]). *)
Definition ObjectId := string.

Definition isDigit (c : ascii) : bool :=
  let n := nat_of_ascii c in (48 <=? n) && (n <=? 57).

Definition isLowerHex (c : ascii) : bool :=
  let n := nat_of_ascii c in (97 <=? n) && (n <=? 102).

Definition isUpperHex (c : ascii) : bool :=
  let n := nat_of_ascii c in (65 <=? n) && (n <=? 70).

Definition isHexDigit (c : ascii) : bool :=
  isDigit c || isLowerHex c || isUpperHex c.

Definition toLowerCase (c : ascii) : ascii :=
  if isUpperHex c then ascii_of_nat (nat_of_ascii c + 32) else c.

Fixpoint string_forallb (p : ascii -> bool) (s : string) : bool :=
  match s with
  | EmptyString => true
  | String c s' => p c && string_forallb p s'
  end.

Fixpoint string_map (f : ascii -> ascii) (s : string) : string :=
  match s with
  | EmptyString => EmptyString
  | String c s' => String (f c) (string_map f s')
  end.

(** [new ObjectId(str)] on a string: the 24-digit hexadecimal form is
    accepted (in either case), any other text makes the constructor
    throw, which is [None] here. *)
Definition parseObjectId (s : string) : option ObjectId :=
  if (String.length s =? 24) && string_forallb isHexDigit s
  then Some (string_map toLowerCase s)
  else None.

(** The JavaScript values that reach an ObjectId path in the two
    handlers: an absent field, a string of the request body, an ObjectId
    read back from a stored document, and the array of strings the
    request carries in [books]. *)
Inductive Value : Type :=
| Undefined
| Str (s : string)
| Oid (o : ObjectId)
| Arr (l : list string).

(** [value.toString()]; an array prints its elements separated by commas. *)
Definition toString (v : Value) : string :=
  match v with
  | Undefined => "undefined"
  | Str s => s
  | Oid o => o
  | Arr l => String.concat "," l
  end.

(** Mongoose's cast to ObjectId: a nullish value is kept, an ObjectId is
    kept, anything else goes through [new ObjectId(value.toString())].
    The outer [None] is a thrown error, [Some None] is the nullish
    value. *)
Definition castObjectId (v : Value) : option (option ObjectId) :=
  match v with
  | Undefined => Some None
  | Oid o => Some (Some o)
  | _ =>
      match parseObjectId (toString v) with
      | Some o => Some (Some o)
      | None => None
      end
  end.

(* ================================================================== *)
(** * Documents and collections *)
(* ================================================================== *)

(** Modelled from the spec: [models/user.model.js] is not among the
    sources; the fields are the ones the spec's data model lists and the
    registration handler fills ([name], [email], [password], [isAdmin]). *)
Record User : Type := mkUser {
  u_id : ObjectId;
  u_name : string;
  u_email : string;
  u_password : string;
  u_isAdmin : bool
}.

(** Modelled from the spec: [models/book.model.js] is not among the
    sources; the fields are the ones the spec's data model lists and the
    catalog handler fills.  A price is an integral amount, as in the
    examples of the API documentation (50, 60, 110); on such amounts the
    addition of JavaScript numbers is the addition of [Z]. *)
Record Book : Type := mkBook {
  b_id : ObjectId;
  b_title : string;
  b_author : string;
  b_category : string;
  b_price : Z;
  b_quantity : Z
}.

(** [orderSchema]: [user] and [books] are each ONE ObjectId, [totalAmount]
    a number; no path is required, so each may be absent. *)
Record Order : Type := mkOrder {
  _id : ObjectId;
  user : option ObjectId;
  books : option ObjectId;
  totalAmount : option Z
}.

(** The three collections, each in storage order. *)
Record Db : Type := mkDb {
  UserModel : list User;
  BookModel : list Book;
  OrderModel : list Order
}.

(** What [order.toObject()] becomes once its two reference fields are
    overwritten by the looked-up documents ([null] is [None]). *)
Record PopulatedOrder : Type := mkPopulated {
  p_id : ObjectId;
  p_user : option User;
  p_books : option Book;
  p_totalAmount : option Z
}.

(* ================================================================== *)
(** * Errors and responses *)
(* ================================================================== *)

Inductive MongooseError : Type :=
| CastError (model path : string) (value : Value)
| ValidationError (model : string) (paths : list (string * Value)).

Inductive Body : Type :=
| Message (message : string)
| ErrorMessage (error : MongooseError)
| OrderPlaced (message : string) (order : Order)
| PopulatedOrders (l : list PopulatedOrder).

Record Response : Type := mkResponse {
  status : nat;
  body : Body
}.

(* ================================================================== *)
(** * Handler computations *)
(* ================================================================== *)

(** An [async] body run against the database: it ends in a value or in a
    thrown error, and leaves a database behind. *)
Definition Async (A : Type) : Type := Db -> (MongooseError + A) * Db.

Definition ret {A} (a : A) : Async A := fun db => (inr a, db).

Definition throw {A} (e : MongooseError) : Async A := fun db => (inl e, db).

Definition bind {A B} (m : Async A) (k : A -> Async B) : Async B :=
  fun db =>
    match m db with
    | (inl e, db') => (inl e, db')
    | (inr a, db') => k a db'
    end.

Declare Scope async_scope.
Delimit Scope async_scope with async.
Notation "'await' x <- m ;; k" := (bind m (fun x => k))
  (at level 61, x pattern, m at next level, right associativity) : async_scope.
Local Open Scope async_scope.

Definition get : Async Db := fun db => (inr db, db).

Definition put (db' : Db) : Async unit := fun _ => (inr tt, db').

(** [try { ... } catch (error) { res.status(500).json({ message: error.message }) }] *)
Definition try_catch (m : Async Response) : Db -> Response * Db :=
  fun db =>
    match m db with
    | (inr r, db') => (r, db')
    | (inl e, db') => (mkResponse 500 (ErrorMessage e), db')
    end.

(* ================================================================== *)
(** * The Mongoose calls of the handlers *)
(* ================================================================== *)

Definition optionValue (o : option ObjectId) : Value :=
  match o with
  | Some id => Oid id
  | None => Undefined
  end.

(** [UserModel.findById(id)]: the argument is cast to the type of [_id];
    a failed cast is thrown, a nullish id matches no document. *)
Definition UserModel_findById (id : Value) : Async (option User) :=
  match castObjectId id with
  | None => throw (CastError "User" "_id" id)
  | Some None => ret None
  | Some (Some oid) =>
      await db <- get ;;
      ret (find (fun u => String.eqb (u_id u) oid) (UserModel db))
  end.

(** [BookModel.findById(id)]. *)
Definition BookModel_findById (id : Value) : Async (option Book) :=
  match castObjectId id with
  | None => throw (CastError "Book" "_id" id)
  | Some None => ret None
  | Some (Some oid) =>
      await db <- get ;;
      ret (find (fun b => String.eqb (b_id b) oid) (BookModel db))
  end.

(** The members of [{ $in: books }] are cast one by one; the first one
    that fails is the error's value. *)
Fixpoint castIn (l : list string) : Value + list ObjectId :=
  match l with
  | [] => inr []
  | s :: l' =>
      match parseObjectId s with
      | None => inl (Str s)
      | Some oid =>
          match castIn l' with
          | inl v => inl v
          | inr oids => inr (oid :: oids)
          end
      end
  end.

Definition memId (oid : ObjectId) (oids : list ObjectId) : bool :=
  existsb (String.eqb oid) oids.

(** The documents of a collection whose [_id] is one of the given ones,
    each document once, in storage order. *)
Definition matching (oids : list ObjectId) (cat : list Book) : list Book :=
  filter (fun b => memId (b_id b) oids) cat.

(** [BookModel.find({ _id: { $in: books } })]. *)
Definition BookModel_find_in (books : list string) : Async (list Book) :=
  match castIn books with
  | inl v => throw (CastError "Book" "_id" v)
  | inr oids =>
      await db <- get ;;
      ret (matching oids (BookModel db))
  end.

(** [OrderModel.find()]: the whole collection. *)
Definition OrderModel_find : Async (list Order) :=
  await db <- get ;;
  ret (OrderModel db).

(** A document under construction: the paths that were set, and the
    values that could not be cast to their path's type, which Mongoose
    keeps until the document is validated. *)
Record OrderDocument : Type := mkDocument {
  doc : Order;
  castErrors : list (string * Value)
}.

Definition setObjectIdPath (path : string) (v : Value)
  : option ObjectId * list (string * Value) :=
  match castObjectId v with
  | Some o => (o, [])
  | None => (None, [(path, v)])
  end.

(** [new OrderModel({ user, books, totalAmount })] against [orderSchema];
    [oid] is the [_id] generated for the new document. *)
Definition new_OrderModel (oid : ObjectId) (user books : Value) (totalAmount : Z)
  : OrderDocument :=
  let '(u, eu) := setObjectIdPath "user" user in
  let '(b, eb) := setObjectIdPath "books" books in
  mkDocument (mkOrder oid u b (Some totalAmount)) (eu ++ eb).

(** [newOrder.save()]: validation rejects a document with a failed cast;
    otherwise the document is inserted. *)
Definition save (d : OrderDocument) : Async unit :=
  match castErrors d with
  | [] =>
      await db <- get ;;
      put (mkDb (UserModel db) (BookModel db) (OrderModel db ++ [doc d]))
  | errs => throw (ValidationError "Order" errs)
  end.

(** [Promise.all] over the mapped callbacks.  The callbacks only read, so
    the order in which they are run does not show in the result. *)
Fixpoint Promise_all {A} (l : list (Async A)) : Async (list A) :=
  match l with
  | [] => ret []
  | m :: l' =>
      await a <- m ;;
      await r <- Promise_all l' ;;
      ret (a :: r)
  end.

(* ================================================================== *)
(** * The handlers *)
(* ================================================================== *)

(** [orderRouter.post("/order", ...)] on the body [{ user, books }];
    [oid] is the identifier generated for the new order. *)
Definition post_order (oid : ObjectId) (user : string) (books : list string)
  : Db -> Response * Db :=
  try_catch (
    await userPresent <- UserModel_findById (Str user) ;;
    match userPresent with
    | None => ret (mkResponse 404 (Message "User not found"))
    | Some _ =>
        await booksPresent <- BookModel_find_in books ;;
        if negb (List.length booksPresent =? List.length books)
        then ret (mkResponse 400 (Message "Books not found"))
        else
          let totalAmount :=
            fold_left (fun total book => (total + b_price book)%Z) booksPresent 0%Z in
          let newOrder := new_OrderModel oid (Str user) (Arr books) totalAmount in
          await _ <- save newOrder ;;
          ret (mkResponse 201 (OrderPlaced "Order placed successfully" (doc newOrder)))
    end).

(** The callback of [orders.map]. *)
Definition populate (order : Order) : Async PopulatedOrder :=
  await u <- UserModel_findById (optionValue (user order)) ;;
  await b <- BookModel_findById (optionValue (books order)) ;;
  ret (mkPopulated (_id order) u b (totalAmount order)).

(** [orderRouter.get("/orders", ...)]. *)
Definition get_orders : Db -> Response * Db :=
  try_catch (
    await orders <- OrderModel_find ;;
    await populatedOrders <- Promise_all (map populate orders) ;;
    ret (mkResponse 200 (PopulatedOrders populatedOrders))).

(* ================================================================== *)
(** * A small library *)
(* ================================================================== *)

Definition U1 : ObjectId := "64b000000000000000000001".
Definition B1 : ObjectId := "64b0000000000000000000b1".
Definition B2 : ObjectId := "64b0000000000000000000b2".
Definition O1 : ObjectId := "64b0000000000000000000f1".

Definition alice : User := mkUser U1 "Alice" "alice@example.com" "hash" false.
Definition book1 : Book := mkBook B1 "Book 1" "Author 1" "Fiction" 50 3.
Definition book2 : Book := mkBook B2 "Book 2" "Author 2" "Science" 60 1.

Definition library : Db := mkDb [alice] [book1; book2] [].

(** An order collection whose only order points at a user and a book
    that are not there. *)
Definition orphaned : Db :=
  mkDb [alice] [book1] [mkOrder O1 (Some B2) (Some U1) (Some 60%Z)].

(* ================================================================== *)
(** * What "resolves" means *)
(* ================================================================== *)


(** A reference of the request resolves to a document when some document
    of the collection carries the identifier the reference denotes. *)
Definition resolvesUser (db : Db) (ref : string) : Prop :=
  exists u, In u (UserModel db) /\ parseObjectId ref = Some (u_id u).

Definition resolvesBook (db : Db) (ref : string) : Prop :=
  exists b, In b (BookModel db) /\ parseObjectId ref = Some (b_id b).

(** The stored reference of an order resolves when it is present and some
    document carries it. *)
Definition storedUserResolves (db : Db) (o : Order) : Prop :=
  exists u, In u (UserModel db) /\ user o = Some (u_id u).

Definition storedBookResolves (db : Db) (o : Order) : Prop :=
  exists b, In b (BookModel db) /\ books o = Some (b_id b).

(** MongoDB keeps [_id] unique within a collection. *)
Definition uniqueBookIds (db : Db) : Prop := NoDup (map b_id (BookModel db)).

(** The price of the book a reference denotes (0 when there is none). *)
Definition priceOf (db : Db) (ref : string) : Z :=
  match parseObjectId ref with
  | Some oid =>
      match find (fun b => String.eqb (b_id b) oid) (BookModel db) with
      | Some b => b_price b
      | None => 0%Z
      end
  | None => 0%Z
  end.

Definition sumPrices (db : Db) (refs : list string) : Z :=
  fold_right (fun ref acc => (priceOf db ref + acc)%Z) 0%Z refs.

(** The enriched record of a stored order, read off the collections. *)
Definition lookupUser (db : Db) (o : option ObjectId) : option User :=
  match o with
  | Some oid => find (fun u => String.eqb (u_id u) oid) (UserModel db)
  | None => None
  end.

Definition lookupBook (db : Db) (o : option ObjectId) : option Book :=
  match o with
  | Some oid => find (fun b => String.eqb (b_id b) oid) (BookModel db)
  | None => None
  end.

Definition populated (db : Db) (o : Order) : PopulatedOrder :=
  mkPopulated (_id o) (lookupUser db (user o)) (lookupBook db (books o))
              (totalAmount o).

(** The sum the handler's [reduce] computes. *)
Definition total (l : list Book) : Z :=
  fold_left (fun total book => (total + b_price book)%Z) l 0%Z.

(** The order the handler stores when every step goes through. *)
Definition placed (oid uid bid : ObjectId) (present : list Book) : Order :=
  mkOrder oid (Some uid) (Some bid) (Some (total present)).

Definition insertOrder (db : Db) (o : Order) : Db :=
  mkDb (UserModel db) (BookModel db) (OrderModel db ++ [o]).

(** The price of the book an identifier names (0 when there is none). *)
Definition priceById (db : Db) (oid : ObjectId) : Z :=
  match find (fun b => String.eqb (b_id b) oid) (BookModel db) with
  | Some b => b_price b
  | None => 0%Z
  end.

Definition sumZ (l : list Z) : Z := fold_right Z.add 0%Z l.

(* ================================================================== *)
(** * The response object *)
(* ================================================================== *)

(** The handlers of the book and user routers are followed down to what
    they write on [res]: a second [res.status(..).json(..)] on a response
    that is already sent throws, and an error thrown inside the [catch]
    block leaves the handler's promise rejected. *)
Inductive HandlerError : Type :=
| Mongoose (e : MongooseError)
| ERR_HTTP_HEADERS_SENT.

(** [jwt.sign(payload, secretOrPrivateKey, { expiresIn })], kept as what
    was signed and with which key. *)
Record Token : Type := mkToken {
  userID : ObjectId;
  secretOrPrivateKey : string;
  expiresIn : string
}.

Inductive Json : Type :=
| JMessage (message : string)
| JError (error : HandlerError)
| JBooks (l : list Book)
| JBookData (book : option Book)
| JBookAdded (message : string) (bookAdded : Book)
| JToken (message : string) (token : Token).

Record Sent : Type := mkSent {
  code : nat;
  json : Json
}.

(** A handler runs against the collections and the response written so
    far. *)
Definition Handler (A : Type) : Type :=
  Db * option Sent -> (HandlerError + A) * (Db * option Sent).

Definition hret {A} (a : A) : Handler A := fun st => (inr a, st).

Definition hbind {A B} (m : Handler A) (k : A -> Handler B) : Handler B :=
  fun st =>
    match m st with
    | (inl e, st') => (inl e, st')
    | (inr a, st') => k a st'
    end.

Declare Scope handler_scope.
Delimit Scope handler_scope with handler.
Notation "'await' x <- m ;; k" := (hbind m (fun x => k))
  (at level 61, x pattern, m at next level, right associativity) : handler_scope.
Local Open Scope handler_scope.

(** A Mongoose call inside a handler. *)
Definition mongoose {A} (m : Async A) : Handler A :=
  fun '(db, res) =>
    match m db with
    | (inl e, db') => (inl (Mongoose e), (db', res))
    | (inr a, db') => (inr a, (db', res))
    end.

(** [res.status(code).json(body)]. *)
Definition send (c : nat) (j : Json) : Handler unit :=
  fun '(db, res) =>
    match res with
    | None => (inr tt, (db, Some (mkSent c j)))
    | Some _ => (inl ERR_HTTP_HEADERS_SENT, (db, res))
    end.

(** [try { m } catch (error) { h error }]. *)
Definition tryCatch (m : Handler unit) (h : HandlerError -> Handler unit)
  : Handler unit :=
  fun st =>
    match m st with
    | (inl e, st') => h e st'
    | ok => ok
    end.

(** What a request ends in: the response the client got, the error the
    handler's promise was rejected with, and the collections. *)
Record Outcome : Type := mkOutcome {
  response : option Sent;
  rejected : option HandlerError;
  after : Db
}.

Definition handle (m : Handler unit) (db : Db) : Outcome :=
  match m (db, None) with
  | (inl e, (db', res)) => mkOutcome res (Some e) db'
  | (inr _, (db', res)) => mkOutcome res None db'
  end.

(* ================================================================== *)
(** * The Mongoose calls of the book router *)
(* ================================================================== *)

(** [BookModel.find()]. *)
Definition BookModel_find : Async (list Book) :=
  fun db => (inr (BookModel db), db).

(** One key of a filter object: not there, there with the value
    [undefined], or there with a string. *)
Inductive Condition : Type :=
| NoKey
| IsUndefined
| Equals (s : string).

(** Whether a stored string meets a condition.  A key whose value is
    [undefined] is dropped from the filter when the driver runs with
    [ignoreUndefined], and is sent as [null] otherwise, which no stored
    string equals. *)
Definition meets (ignoreUndefined : bool) (c : Condition) (stored : string) : bool :=
  match c with
  | NoKey => true
  | IsUndefined => ignoreUndefined
  | Equals s => String.eqb stored s
  end.

(** [BookModel.find({ author: .., category: .. })]. *)
Definition BookModel_find_where (ignoreUndefined : bool) (author category : Condition)
  : Async (list Book) :=
  fun db =>
    (inr (filter (fun b => meets ignoreUndefined author (b_author b)
                           && meets ignoreUndefined category (b_category b))
                 (BookModel db)),
     db).

(** [new BookModel({ title, author, category, price, quantity })]; [oid]
    is the [_id] generated for the new document. *)
Definition new_BookModel (oid : ObjectId) (title author category : string)
           (price quantity : Z) : Book :=
  mkBook oid title author category price quantity.

(** [newBook.save()]. *)
Definition BookModel_save (b : Book) : Async unit :=
  fun db => (inr tt, mkDb (UserModel db) (BookModel db ++ [b]) (OrderModel db)).

(** The body of [PATCH /books/:id]: the paths of the book it carries. *)
Record BookUpdate : Type := mkUpdate {
  set_title : option string;
  set_author : option string;
  set_category : option string;
  set_price : option Z;
  set_quantity : option Z
}.

Definition orKeep {A} (o : option A) (old : A) : A :=
  match o with
  | Some new => new
  | None => old
  end.

(** [$set] of the paths the update carries; [_id] stays. *)
Definition applyUpdate (u : BookUpdate) (b : Book) : Book :=
  mkBook (b_id b)
         (orKeep (set_title u) (b_title b))
         (orKeep (set_author u) (b_author b))
         (orKeep (set_category u) (b_category b))
         (orKeep (set_price u) (b_price b))
         (orKeep (set_quantity u) (b_quantity b)).

(** The first document with the given [_id] is replaced by its update. *)
Fixpoint updateOne (oid : ObjectId) (u : BookUpdate) (l : list Book) : list Book :=
  match l with
  | [] => []
  | b :: l' =>
      if String.eqb (b_id b) oid then applyUpdate u b :: l'
      else b :: updateOne oid u l'
  end.

(** [BookModel.findByIdAndUpdate(id, update, { new: true })]: the updated
    document, or [null] when no document has the id. *)
Definition BookModel_findByIdAndUpdate (id : Value) (u : BookUpdate)
  : Async (option Book) :=
  match castObjectId id with
  | None => throw (CastError "Book" "_id" id)
  | Some None => ret None
  | Some (Some oid) =>
      fun db =>
        match find (fun b => String.eqb (b_id b) oid) (BookModel db) with
        | None => (inr None, db)
        | Some b =>
            (inr (Some (applyUpdate u b)),
             mkDb (UserModel db) (updateOne oid u (BookModel db)) (OrderModel db))
        end
  end.

(** The first document with the given [_id] is removed. *)
Fixpoint deleteOne (oid : ObjectId) (l : list Book) : list Book :=
  match l with
  | [] => []
  | b :: l' =>
      if String.eqb (b_id b) oid then l' else b :: deleteOne oid l'
  end.

(** [BookModel.findByIdAndDelete(id)]: the removed document, or [null]. *)
Definition BookModel_findByIdAndDelete (id : Value) : Async (option Book) :=
  match castObjectId id with
  | None => throw (CastError "Book" "_id" id)
  | Some None => ret None
  | Some (Some oid) =>
      fun db =>
        (inr (find (fun b => String.eqb (b_id b) oid) (BookModel db)),
         mkDb (UserModel db) (deleteOne oid (BookModel db)) (OrderModel db))
  end.

(* ================================================================== *)
(** * The handlers of the book router *)
(* ================================================================== *)

(** [bookRouter.get("/books", ...)]. *)
Definition get_books : Db -> Outcome :=
  handle (
    tryCatch (
      await l <- mongoose BookModel_find ;;
      send 200 (JBooks l))
    (fun error => send 500 (JError error))).

(** [bookRouter.get("/books/:id", ...)].  The branch of [!book] sends and
    does not return: the handler goes on to the second [res.status]. *)
Definition get_books_id (BookID : string) : Db -> Outcome :=
  handle (
    tryCatch (
      await book <- mongoose (BookModel_findById (Str BookID)) ;;
      await _ <- match book with
                 | None => send 404 (JMessage "Book Not Found")
                 | Some _ => hret tt
                 end ;;
      send 200 (JBookData book))
    (fun error => send 500 (JError error))).

(** What [req.query] holds under a name: nothing, or a string. *)
Definition queryValue (q : option string) : Condition :=
  match q with
  | Some s => Equals s
  | None => IsUndefined
  end.

(** [if (x) query.x = x]: the key is set for a non-empty string only. *)
Definition ifTruthy (q : option string) : Condition :=
  match q with
  | Some EmptyString => NoKey
  | Some s => Equals s
  | None => NoKey
  end.

(** The first [bookRouter.get("/book", ...)]: [{ category: category }]. *)
Definition get_book_category (ignoreUndefined : bool) (category : option string)
  : Db -> Outcome :=
  handle (
    tryCatch (
      await l <- mongoose (BookModel_find_where ignoreUndefined NoKey
                                                (queryValue category)) ;;
      send 200 (JBooks l))
    (fun error => send 500 (JError error))).

(** The second [bookRouter.get("/book", ...)]: author and category. *)
Definition get_book_author_category (ignoreUndefined : bool)
           (author category : option string) : Db -> Outcome :=
  handle (
    tryCatch (
      await l <- mongoose (BookModel_find_where ignoreUndefined
                                                (ifTruthy author)
                                                (ifTruthy category)) ;;
      send 200 (JBooks l))
    (fun error => send 500 (JError error))).

(** [bookRouter.post("/books", ...)] on a body that carries the five
    paths. *)
Definition post_books (oid : ObjectId) (title author category : string)
           (price quantity : Z) : Db -> Outcome :=
  handle (
    tryCatch (
      let newBook := new_BookModel oid title author category price quantity in
      await _ <- mongoose (BookModel_save newBook) ;;
      send 201 (JBookAdded "Book added" newBook))
    (fun error => send 500 (JError error))).

(** [bookRouter.patch("/books/:id", ...)]. *)
Definition patch_books_id (BookID : string) (updatedBookData : BookUpdate)
  : Db -> Outcome :=
  handle (
    tryCatch (
      await updatedBook <-
        mongoose (BookModel_findByIdAndUpdate (Str BookID) updatedBookData) ;;
      match updatedBook with
      | None => send 404 (JMessage "Book not found")
      | Some _ => send 204 (JMessage "Book Updated")
      end)
    (fun error => send 500 (JError error))).

(** [bookRouter.delete("/books/:id", ...)]. *)
Definition delete_books_id (BookID : string) : Db -> Outcome :=
  handle (
    tryCatch (
      await _ <- mongoose (BookModel_findByIdAndDelete (Str BookID)) ;;
      send 202 (JMessage "Book Deleted"))
    (fun error => send 500 (JError error))).

(* ================================================================== *)
(** * The GET routes of the book router *)
(* ================================================================== *)

Inductive Segment : Type :=
| Lit (s : string)
| Param.

Definition lowerAscii (c : ascii) : ascii :=
  let n := nat_of_ascii c in
  if (65 <=? n) && (n <=? 90) then ascii_of_nat (n + 32) else c.

(** Routers match paths without regard to case. *)
Definition sameSegment (a b : string) : bool :=
  String.eqb (string_map lowerAscii a) (string_map lowerAscii b).

(** A path, cut at its slashes, against a route path: the values of the
    parameters when it matches. *)
Fixpoint matchPath (pattern : list Segment) (path : list string)
  : option (list string) :=
  match pattern, path with
  | [], [] => Some []
  | Lit s :: pattern', seg :: path' =>
      if sameSegment s seg then matchPath pattern' path' else None
  | Param :: pattern', seg :: path' =>
      match seg with
      | EmptyString => None
      | _ =>
          match matchPath pattern' path' with
          | Some params => Some (seg :: params)
          | None => None
          end
      end
  | _, _ => None
  end.

(** The part of [req.query] the handlers read. *)
Record Query : Type := mkQuery {
  q_author : option string;
  q_category : option string
}.

Definition GetHandler : Type := list string -> Query -> Db -> Outcome.

(** The [bookRouter.get] registrations, in the order of the file. *)
Definition bookRouter_get (ignoreUndefined : bool)
  : list (list Segment * GetHandler) :=
  [ ([Lit "books"], fun _ _ => get_books);
    ([Lit "books"; Param], fun params _ => get_books_id (hd "" params));
    ([Lit "book"], fun _ q => get_book_category ignoreUndefined (q_category q));
    ([Lit "book"], fun _ q =>
       get_book_author_category ignoreUndefined (q_author q) (q_category q)) ].

(** A GET request goes to the first registration whose path matches; no
    handler calls [next], so no later one runs.  [None]: the request
    leaves the router unanswered. *)
Fixpoint dispatch (routes : list (list Segment * GetHandler))
         (path : list string) (q : Query) (db : Db) : option Outcome :=
  match routes with
  | [] => None
  | (pattern, handler) :: routes' =>
      match matchPath pattern path with
      | Some params => Some (handler params q db)
      | None => dispatch routes' path q db
      end
  end.

(* ================================================================== *)
(** * The user router *)
(* ================================================================== *)

(** [UserModel.findOne({ email })] on a string. *)
Definition UserModel_findOne (email : string) : Async (option User) :=
  fun db => (inr (find (fun u => String.eqb (u_email u) email) (UserModel db)), db).

(** [newUser.save()]. *)
Definition UserModel_save (u : User) : Async unit :=
  fun db => (inr tt, mkDb (UserModel db ++ [u]) (BookModel db) (OrderModel db)).

(** [jwt.sign({ userID: user._id }, "masai", { expiresIn: "1h" })]. *)
Definition jwt_sign (uid : ObjectId) : Token := mkToken uid "masai" "1h".

Section Bcrypt.

(** [bcrypt.hash(data, saltRounds)] with the salt it draws, and
    [bcrypt.compare(data, encrypted)]. *)
Variable bcrypt_hash : string -> nat -> string -> string.
Variable bcrypt_compare : string -> string -> bool.

(** [userRouter.post("/register", ...)] on a body that carries the four
    paths; [oid] is the generated [_id], [salt] the salt drawn. *)
Definition register (oid : ObjectId) (salt : string)
           (name email password : string) (isAdmin : bool) : Db -> Outcome :=
  handle (
    tryCatch (
      let hashedPassword := bcrypt_hash password 5 salt in
      let newUser := mkUser oid name email hashedPassword isAdmin in
      await _ <- mongoose (UserModel_save newUser) ;;
      send 201 (JMessage (name ++ " successfully registered")%string))
    (fun error => send 500 (JError error))).

(** [userRouter.post("/login", ...)] on a body that carries both paths. *)
Definition login (email password : string) : Db -> Outcome :=
  handle (
    tryCatch (
      await found <- mongoose (UserModel_findOne email) ;;
      match found with
      | None => send 401 (JMessage "User Not Found")
      | Some usr =>
          let convertedPassword := bcrypt_compare password (u_password usr) in
          let token := jwt_sign (u_id usr) in
          if convertedPassword
          then send 201 (JToken "User LoggedIn" token)
          else send 401 (JMessage "Wrong Password")
      end)
    (fun error => send 500 (JError error))).

End Bcrypt.

(** The collections with another catalog. *)
Definition withBooks (db : Db) (l : list Book) : Db :=
  mkDb (UserModel db) l (OrderModel db).

(* ================================================================== *)
(** * More of the small library *)
(* ================================================================== *)

(** The library after Alice's order for Book 1. *)
Definition order1 : Order := mkOrder O1 (Some U1) (Some B1) (Some 50%Z).

Definition ordered : Db := mkDb [alice] [book1; book2] [order1].

(** A body that changes the price only, and the empty body. *)
Definition reprice (p : Z) : BookUpdate := mkUpdate None None None (Some p) None.

Definition noUpdate : BookUpdate := mkUpdate None None None None None.

(** A stand-in for bcrypt, for running the handlers: the hash is the salt
    followed by the data. *)
Definition toy_hash (data : string) (rounds : nat) (salt : string) : string :=
  (salt ++ "$" ++ data)%string.

Definition toy_compare (data encrypted : string) : bool :=
  match index 0 "$" encrypted with
  | Some n =>
      String.eqb (substring (S n) (String.length encrypted - S n) encrypted) data
  | None => false
  end.

Definition U2 : ObjectId := "64b000000000000000000002".
Definition alias : User := mkUser U2 "Alias" "alice@example.com" "s$two" false.

(** Two users stored under one e-mail. *)
Definition twins : Db :=
  mkDb [mkUser U1 "Alice" "alice@example.com" "s$one" false; alias] [] [].
Definition B3 : ObjectId := "64b0000000000000000000b3".

(* ================================================================== *)
(** * Strings and casts *)
(* ================================================================== *)

Lemma string_forallb_app (p : ascii -> bool) (s1 s2 : string) :
  string_forallb p (s1 ++ s2)%string = string_forallb p s1 && string_forallb p s2.
Proof.
  induction s1 as [|c s1 IH]; simpl.
  - reflexivity.
  - rewrite IH. now rewrite andb_assoc.
Qed.

Lemma concat_cons2 (a b : string) (l : list string) :
  String.concat "," (a :: b :: l) = (a ++ "," ++ String.concat "," (b :: l))%string.
Proof. reflexivity. Qed.

(** The text of an array of two or more elements holds a comma, which is
    no hexadecimal digit: it is never an ObjectId. *)
Lemma parseObjectId_join (a b : string) (l : list string) :
  parseObjectId (String.concat "," (a :: b :: l)) = None.
Proof.
  unfold parseObjectId. rewrite concat_cons2.
  rewrite string_forallb_app.
  change (string_forallb isHexDigit ("," ++ String.concat "," (b :: l))%string) with false.
  now rewrite !andb_false_r.
Qed.

Lemma castObjectId_optionValue (o : option ObjectId) :
  castObjectId (optionValue o) = Some o.
Proof. destruct o; reflexivity. Qed.

Lemma castObjectId_Arr (l : list string) :
  castObjectId (Arr l) =
  match l with
  | [s] => match parseObjectId s with Some o => Some (Some o) | None => None end
  | _ => None
  end.
Proof.
  destruct l as [|a [|b l]]; try reflexivity.
  unfold castObjectId, toString. now rewrite parseObjectId_join.
Qed.

Lemma castIn_length (l : list string) (oids : list ObjectId) :
  castIn l = inr oids -> List.length oids = List.length l.
Proof.
  revert oids. induction l as [|s l IH]; simpl; intros oids H.
  - now inversion H.
  - destruct (parseObjectId s); [|discriminate].
    destruct (castIn l) as [v|oids']; [discriminate|].
    inversion H; subst. simpl. now rewrite (IH oids').
Qed.

(* ================================================================== *)
(** * The handlers, step by step *)
(* ================================================================== *)

Lemma populate_run (o : Order) (db : Db) :
  populate o db = (inr (populated db o), db).
Proof.
  unfold populate, UserModel_findById, BookModel_findById, bind.
  rewrite !castObjectId_optionValue.
  unfold populated, lookupUser, lookupBook.
  destruct (user o), (books o); reflexivity.
Qed.

Lemma Promise_all_populate (l : list Order) (db : Db) :
  Promise_all (map populate l) db = (inr (map (populated db) l), db).
Proof.
  induction l as [|o l IH]; simpl.
  - reflexivity.
  - unfold bind. rewrite populate_run. fold (@bind (list PopulatedOrder)).
    unfold bind. now rewrite IH.
Qed.

Lemma get_orders_run (db : Db) :
  get_orders db =
  (mkResponse 200 (PopulatedOrders (map (populated db) (OrderModel db))), db).
Proof.
  unfold get_orders, try_catch, OrderModel_find, bind, get, ret.
  now rewrite Promise_all_populate.
Qed.

Lemma new_OrderModel_run (oid : ObjectId) (u : string) (uid : ObjectId)
      (bs : list string) (t : Z) :
  parseObjectId u = Some uid ->
  new_OrderModel oid (Str u) (Arr bs) t =
  match castObjectId (Arr bs) with
  | Some b => mkDocument (mkOrder oid (Some uid) b (Some t)) []
  | None => mkDocument (mkOrder oid (Some uid) None (Some t)) [("books", Arr bs)]
  end.
Proof.
  intros Eu. unfold new_OrderModel, setObjectIdPath.
  unfold castObjectId at 1. unfold toString at 1. rewrite Eu.
  destruct (castObjectId (Arr bs)); reflexivity.
Qed.

(** The handler of [POST /order] as a case analysis on its steps. *)
Lemma post_order_run (oid : ObjectId) (u : string) (bs : list string) (db : Db) :
  post_order oid u bs db =
  match parseObjectId u with
  | None => (mkResponse 500 (ErrorMessage (CastError "User" "_id" (Str u))), db)
  | Some uid =>
      match find (fun x => String.eqb (u_id x) uid) (UserModel db) with
      | None => (mkResponse 404 (Message "User not found"), db)
      | Some _ =>
          match castIn bs with
          | inl v => (mkResponse 500 (ErrorMessage (CastError "Book" "_id" v)), db)
          | inr oids =>
              let present := matching oids (BookModel db) in
              if List.length present =? List.length bs then
                match castObjectId (Arr bs) with
                | Some (Some bid) =>
                    (mkResponse 201
                       (OrderPlaced "Order placed successfully"
                          (placed oid uid bid present)),
                     insertOrder db (placed oid uid bid present))
                | _ =>
                    (mkResponse 500
                       (ErrorMessage (ValidationError "Order" [("books", Arr bs)])),
                     db)
                end
              else (mkResponse 400 (Message "Books not found"), db)
          end
      end
  end.
Proof.
  unfold post_order, try_catch, UserModel_findById, bind, get, ret, throw.
  unfold castObjectId at 1. unfold toString at 1.
  destruct (parseObjectId u) as [uid|] eqn:Eu; [|reflexivity].
  destruct (find _ (UserModel db)) as [usr|]; [|reflexivity].
  unfold BookModel_find_in, bind, get, ret, throw.
  destruct (castIn bs) as [v|oids]; [reflexivity|].
  cbv zeta.
  destruct (List.length _ =? List.length bs); [|reflexivity].
  cbn [negb].
  rewrite !(new_OrderModel_run oid u uid bs _ Eu).
  destruct (castObjectId (Arr bs)) as [[bid|]|] eqn:Eb;
    unfold save, bind, get, put, placed, insertOrder, total; cbn.
  - reflexivity.
  - rewrite castObjectId_Arr in Eb.
    destruct bs as [|a [|b l]]; try discriminate.
    destruct (parseObjectId a); discriminate.
  - reflexivity.
Qed.

(* ================================================================== *)
(** * The set-membership query *)
(* ================================================================== *)

Lemma memId_In (x : ObjectId) (l : list ObjectId) :
  memId x l = true <-> In x l.
Proof.
  unfold memId. rewrite existsb_exists. split.
  - intros [y [Hy E]]. apply String.eqb_eq in E. now subst.
  - intros H. exists x. split; [assumption | apply String.eqb_refl].
Qed.

Lemma NoDup_map_filter (l : list Book) (p : Book -> bool) :
  NoDup (map b_id l) -> NoDup (map b_id (filter p l)).
Proof.
  induction l as [|b l IH]; simpl; intros H.
  - constructor.
  - inversion H as [|? ? Hn Hl]; subst.
    destruct (p b); simpl; [|auto].
    constructor; [|auto].
    intros Hin. apply Hn.
    apply in_map_iff in Hin. destruct Hin as [b' [E Hb']].
    apply filter_In in Hb'. apply in_map_iff. exists b'. tauto.
Qed.

Section Query.

Variable cat : list Book.
Variable oids : list ObjectId.

Lemma present_ids (x : ObjectId) :
  In x (map b_id (matching oids cat)) <->
  In x (map b_id cat) /\ In x oids.
Proof.
  rewrite !in_map_iff. split.
  - intros [b [E Hb]]. apply filter_In in Hb. destruct Hb as [Hb Hw].
    apply memId_In in Hw. subst x.
    split; [exists b; auto | assumption].
  - intros [[b [E Hb]] Hx]. exists b. split; [assumption|].
    apply filter_In. split; [assumption|].
    apply memId_In. now rewrite E.
Qed.

Hypothesis unique : NoDup (map b_id cat).


(** Pairwise distinct identifiers, each with a document: the query
    returns exactly their documents. *)
Lemma present_all :
  NoDup oids -> incl oids (map b_id cat) ->
  Permutation (map b_id (matching oids cat)) oids.
Proof.
  intros Hnd Hincl. apply NoDup_Permutation.
  - now apply NoDup_map_filter.
  - assumption.
  - intros x. rewrite present_ids. split; [tauto|].
    intros Hx. split; [now apply Hincl | assumption].
Qed.

(** A repeated identifier: the query, which returns each document
    once, comes back short. *)
Lemma present_dup :
  ~ NoDup oids ->
  List.length (matching oids cat) < List.length oids.
Proof.
  intros Hdup.
  rewrite <- (length_map b_id (matching oids cat)).
  assert (Hle : List.length (map b_id (matching oids cat))
                <= List.length oids).
  { apply NoDup_incl_length; [now apply NoDup_map_filter|].
    intros y Hy. apply present_ids in Hy. tauto. }
  destruct (Nat.eq_dec (List.length (map b_id (matching oids cat)))
                       (List.length oids)) as [E|N]; [|lia].
  exfalso. apply Hdup.
  apply NoDup_incl_NoDup with (l := map b_id (matching oids cat)).
  - now apply NoDup_map_filter.
  - lia.
  - intros y Hy. apply present_ids in Hy. tauto.
Qed.

End Query.

(* ================================================================== *)
(** * Resolving references *)
(* ================================================================== *)

Lemma find_present {A} (f : A -> bool) (l : list A) (x : A) :
  In x l -> f x = true -> exists y, find f l = Some y.
Proof.
  intros Hin Hf. destruct (find f l) as [y|] eqn:E.
  - now exists y.
  - rewrite (find_none f l E x Hin) in Hf. discriminate.
Qed.

Lemma resolvesUser_find (db : Db) (u : string) :
  resolvesUser db u ->
  exists uid usr,
    parseObjectId u = Some uid /\
    find (fun x => String.eqb (u_id x) uid) (UserModel db) = Some usr.
Proof.
  intros [usr [Hin E]].
  destruct (find_present (fun x => String.eqb (u_id x) (u_id usr))
                         (UserModel db) usr Hin (String.eqb_refl _)) as [y Hy].
  now exists (u_id usr), y.
Qed.




(** How a request that is answered 201 looks, and what it stores. *)
Lemma post_order_201 (oid : ObjectId) (u : string) (bs : list string) (db : Db) :
  status (fst (post_order oid u bs db)) = 201 ->
  exists uid usr b bid,
    parseObjectId u = Some uid /\
    find (fun x => String.eqb (u_id x) uid) (UserModel db) = Some usr /\
    bs = [b] /\ parseObjectId b = Some bid /\
    let present := matching [bid] (BookModel db) in
    List.length present = 1 /\
    post_order oid u bs db =
    (mkResponse 201 (OrderPlaced "Order placed successfully"
                                 (placed oid uid bid present)),
     insertOrder db (placed oid uid bid present)).
Proof.
  rewrite post_order_run.
  destruct (parseObjectId u) as [uid|] eqn:Eu; [|discriminate].
  destruct (find _ (UserModel db)) as [usr|] eqn:Ef; [|discriminate].
  destruct (castIn bs) as [v|oids] eqn:Ec; [discriminate|].
  cbv zeta.
  destruct (List.length _ =? List.length bs) eqn:El; [|discriminate].
  rewrite castObjectId_Arr.
  destruct bs as [|b [|b' l]]; try discriminate.
  destruct (parseObjectId b) as [bid|] eqn:Eb; [|discriminate].
  intros _. exists uid, usr, b, bid.
  simpl in Ec. rewrite Eb in Ec. inversion Ec; subst oids.
  apply Nat.eqb_eq in El.
  repeat split; auto.
Qed.

(** Any other answer leaves the three collections as they were. *)
Lemma post_order_not_201 (oid : ObjectId) (u : string) (bs : list string) (db : Db) :
  status (fst (post_order oid u bs db)) <> 201 ->
  snd (post_order oid u bs db) = db.
Proof.
  rewrite post_order_run.
  destruct (parseObjectId u) as [uid|]; [|reflexivity].
  destruct (find _ (UserModel db)); [|reflexivity].
  destruct (castIn bs); [reflexivity|].
  cbv zeta.
  destruct (List.length _ =? List.length bs); [|reflexivity].
  destruct (castObjectId (Arr bs)) as [[bid|]|]; try reflexivity.
  simpl. congruence.
Qed.

(* ================================================================== *)
(** * Listing the orders *)
(* ================================================================== *)

(** C5. For every state of the order collection, [GET /orders] answers
    200 with exactly one enriched record per stored order: the result is
    as long as the collection, and its records carry the stored orders'
    identifiers in storage order (nothing filtered, nothing paged). *)
Theorem get_orders_one_record_per_order (db : Db) :
  exists l,
    get_orders db = (mkResponse 200 (PopulatedOrders l), db) /\
    List.length l = List.length (OrderModel db) /\
    map p_id l = map _id (OrderModel db).
Proof.
  exists (map (populated db) (OrderModel db)).
  split; [apply get_orders_run|].
  split; [apply length_map|].
  rewrite map_map. reflexivity.
Qed.

Lemma lookupUser_unresolved (db : Db) (o : Order) :
  ~ storedUserResolves db o -> lookupUser db (user o) = None.
Proof.
  intros Hno. unfold lookupUser.
  destruct (user o) as [oid|] eqn:E; [|reflexivity].
  destruct (find _ (UserModel db)) as [usr|] eqn:F; [|reflexivity].
  exfalso. apply Hno. apply find_some in F. destruct F as [Hin Heq].
  apply String.eqb_eq in Heq. exists usr. split; [assumption|congruence].
Qed.

Lemma lookupBook_unresolved (db : Db) (o : Order) :
  ~ storedBookResolves db o -> lookupBook db (books o) = None.
Proof.
  intros Hno. unfold lookupBook.
  destruct (books o) as [oid|] eqn:E; [|reflexivity].
  destruct (find _ (BookModel db)) as [bk|] eqn:F; [|reflexivity].
  exfalso. apply Hno. apply find_some in F. destruct F as [Hin Heq].
  apply String.eqb_eq in Heq. exists bk. split; [assumption|congruence].
Qed.

Lemma Forall2_populated (P : Order -> PopulatedOrder -> Prop) (db : Db)
      (l : list Order) :
  (forall o, In o l -> P o (populated db o)) ->
  Forall2 P l (map (populated db) l).
Proof.
  induction l as [|o l IH]; simpl; intros H; constructor.
  - apply H. now left.
  - apply IH. intros o' Ho'. apply H. now right.
Qed.

(** C6. In [GET /orders], a stored order whose user reference or book
    reference does not resolve gets [null] in that field of its enriched
    record; the listing still answers 200, with a record for every
    stored order. *)
Theorem get_orders_unresolved_is_null (db : Db) :
  exists l,
    get_orders db = (mkResponse 200 (PopulatedOrders l), db) /\
    Forall2 (fun o r =>
               p_id r = _id o /\
               (~ storedUserResolves db o -> p_user r = None) /\
               (~ storedBookResolves db o -> p_books r = None))
            (OrderModel db) l.
Proof.
  exists (map (populated db) (OrderModel db)).
  split; [apply get_orders_run|].
  apply Forall2_populated. intros o _. simpl.
  split; [reflexivity|]. split.
  - apply lookupUser_unresolved.
  - apply lookupBook_unresolved.
Qed.

Lemma get_orders_unresolved_is_null_witness :
  exists r,
    fst (get_orders orphaned) = mkResponse 200 (PopulatedOrders [r]) /\
    p_user r = None /\ p_books r = None.
Proof.
  destruct (get_orders_unresolved_is_null orphaned) as [l [E F]].
  inversion F as [|o r os rs [_ [Hu Hb]] Frest]; subst.
  inversion Frest; subst.
  exists r. rewrite E. split; [reflexivity|]. split.
  - apply Hu. intros [usr [[<-|[]] Heq]]. discriminate.
  - apply Hb. intros [bk [[<-|[]] Heq]]. discriminate.
Defined.

(** C8. Two calls of [GET /orders] with no write in between: the first
    leaves the three collections as they were, the second gives the same
    response, and in both the records carry the stored orders'
    [totalAmount] and identifiers. *)
Theorem get_orders_twice (db : Db) :
  snd (get_orders db) = db /\
  fst (get_orders (snd (get_orders db))) = fst (get_orders db) /\
  exists l,
    body (fst (get_orders db)) = PopulatedOrders l /\
    body (fst (get_orders (snd (get_orders db)))) = PopulatedOrders l /\
    map p_totalAmount l = map totalAmount (OrderModel db) /\
    map p_id l = map _id (OrderModel db).
Proof.
  repeat (rewrite get_orders_run; cbn [fst snd body]).
  split; [reflexivity|]. split; [reflexivity|].
  exists (map (populated db) (OrderModel db)).
  rewrite !map_map. simpl. repeat split; reflexivity.
Qed.

(* ================================================================== *)
(** * Placing an order: what is written *)
(* ================================================================== *)

(** C7. [POST /order] never touches the user and book collections.  When
    it answers 201 it has written exactly one document, the order of the
    response, at the end of the order collection.  Any other answer, the
    404 of an unknown user and the 400 of unknown books among them,
    leaves all three collections as they were. *)
Theorem post_order_writes (oid : ObjectId) (u : string) (bs : list string) (db : Db) :
  UserModel (snd (post_order oid u bs db)) = UserModel db /\
  BookModel (snd (post_order oid u bs db)) = BookModel db /\
  (status (fst (post_order oid u bs db)) = 201 ->
   exists o,
     body (fst (post_order oid u bs db)) =
       OrderPlaced "Order placed successfully" o /\
     OrderModel (snd (post_order oid u bs db)) = OrderModel db ++ [o]) /\
  (status (fst (post_order oid u bs db)) <> 201 ->
   snd (post_order oid u bs db) = db).
Proof.
  destruct (Nat.eq_dec (status (fst (post_order oid u bs db))) 201) as [E|N].
  - destruct (post_order_201 oid u bs db E)
      as [uid [usr [b [bid [_ [_ [_ [_ [_ R]]]]]]]]].
    rewrite R. cbn [fst snd status body insertOrder UserModel BookModel OrderModel].
    repeat split; try reflexivity.
    + intros _. eexists. split; reflexivity.
    + intros H. now elim H.
  - pose proof (post_order_not_201 oid u bs db N) as R.
    rewrite R. repeat split; try reflexivity.
    intros E. contradiction.
Qed.

Lemma post_order_writes_witness :
  (exists o, OrderModel (snd (post_order O1 U1 [B1] library)) = [] ++ [o]) /\
  snd (post_order O1 B1 [B1] library) = library /\
  snd (post_order O1 U1 [U1] library) = library.
Proof.
  split; [|split].
  - destruct (post_order_writes O1 U1 [B1] library) as [_ [_ [H _]]].
    destruct (H eq_refl) as [o [_ Ho]]. now exists o.
  - destruct (post_order_writes O1 B1 [B1] library) as [_ [_ [_ H]]].
    apply H. vm_compute. discriminate.
  - destruct (post_order_writes O1 U1 [U1] library) as [_ [_ [_ H]]].
    apply H. vm_compute. discriminate.
Defined.

(** C10. A stored order holds at most one book reference, as
    [orderSchema] types [books]: an order is stored only for a request
    with exactly one book reference, and it stores that one identifier;
    and in [GET /orders] the [books] field of every enriched record is
    [null] or the one book document the stored reference names, never a
    collection. *)
Theorem stored_order_single_book :
  (forall oid u bs db,
      status (fst (post_order oid u bs db)) = 201 ->
      exists b bid o,
        bs = [b] /\ parseObjectId b = Some bid /\ books o = Some bid /\
        OrderModel (snd (post_order oid u bs db)) = OrderModel db ++ [o]) /\
  (forall db,
      exists l,
        fst (get_orders db) = mkResponse 200 (PopulatedOrders l) /\
        Forall2 (fun o r =>
                   p_books r = None \/
                   exists bk, p_books r = Some bk /\ In bk (BookModel db) /\
                              books o = Some (b_id bk))
                (OrderModel db) l).
Proof.
  split.
  - intros oid u bs db E.
    destruct (post_order_201 oid u bs db E)
      as [uid [usr [b [bid [_ [_ [Hbs [Hb [_ R]]]]]]]]].
    exists b, bid, (placed oid uid bid
                      (matching [bid] (BookModel db))).
    rewrite R. auto.
  - intros db. exists (map (populated db) (OrderModel db)).
    rewrite get_orders_run. split; [reflexivity|].
    apply Forall2_populated. intros o _. simpl. unfold lookupBook.
    destruct (books o) as [id|]; [|now left].
    destruct (find _ (BookModel db)) as [bk|] eqn:F; [|now left].
    right. exists bk. apply find_some in F. destruct F as [Hin Heq].
    apply String.eqb_eq in Heq. subst id. auto.
Qed.

Lemma stored_order_single_book_witness :
  exists o, books o = Some B1 /\
            OrderModel (snd (post_order O1 U1 [B1] library)) = [] ++ [o].
Proof.
  destruct stored_order_single_book as [H _].
  destruct (H O1 U1 [B1] library eq_refl) as [b [bid [o [Hb [Hp [Ho Hs]]]]]].
  exists o. split; [|exact Hs].
  inversion Hb; subst b. vm_compute in Hp. inversion Hp; subst bid. exact Ho.
Defined.

(* ================================================================== *)
(** * Placing an order: the two validations *)
(* ================================================================== *)






Lemma library_has_alice : resolvesUser library U1.
Proof. exists alice. split; [now left | reflexivity]. Defined.

Lemma library_unique : uniqueBookIds library.
Proof.
  unfold uniqueBookIds. simpl.
  constructor; [intros [H|[]]; discriminate|].
  constructor; [intros []|constructor].
Defined.



(* ================================================================== *)
(** * Placing an order: the total *)
(* ================================================================== *)

Lemma total_from (l : list Book) (a : Z) :
  fold_left (fun total book => (total + b_price book)%Z) l a =
  (a + sumZ (map b_price l))%Z.
Proof.
  revert a. induction l as [|b l IH]; simpl; intros a.
  - lia.
  - rewrite IH. lia.
Qed.

Lemma total_sumZ (l : list Book) : total l = sumZ (map b_price l).
Proof. unfold total. now rewrite total_from. Qed.

Lemma sumZ_Permutation (l l' : list Z) : Permutation l l' -> sumZ l = sumZ l'.
Proof.
  induction 1; simpl; lia.
Qed.

Lemma find_unique (cat : list Book) (b : Book) :
  NoDup (map b_id cat) -> In b cat ->
  find (fun x => String.eqb (b_id x) (b_id b)) cat = Some b.
Proof.
  induction cat as [|c cat IH]; simpl; intros Hnd Hin; [contradiction|].
  inversion Hnd as [|? ? Hn Hl]; subst.
  destruct Hin as [->|Hin].
  - now rewrite String.eqb_refl.
  - destruct (String.eqb_spec (b_id c) (b_id b)) as [E|_].
    + exfalso. apply Hn. rewrite E. now apply in_map.
    + now apply IH.
Qed.

Lemma prices_by_id (db : Db) (l : list Book) :
  uniqueBookIds db -> incl l (BookModel db) ->
  map b_price l = map (priceById db) (map b_id l).
Proof.
  intros Huniq. induction l as [|b l IH]; cbn [map]; intros Hincl; [reflexivity|].
  rewrite IH by (intros x Hx; apply Hincl; now right).
  f_equal. unfold priceById.
  now rewrite (find_unique (BookModel db) b Huniq) by (apply Hincl; now left).
Qed.

Lemma sumPrices_by_id (db : Db) (bs : list string) (oids : list ObjectId) :
  castIn bs = inr oids -> sumPrices db bs = sumZ (map (priceById db) oids).
Proof.
  revert oids. induction bs as [|s bs IH]; simpl; intros oids H.
  - now inversion H.
  - unfold priceOf. destruct (parseObjectId s) as [oid|]; [|discriminate].
    destruct (castIn bs) as [v|oids']; [discriminate|].
    inversion H; subst. simpl. rewrite (IH oids' eq_refl). reflexivity.
Qed.

Lemma castIn_resolved (db : Db) (bs : list string) (oids : list ObjectId) :
  castIn bs = inr oids -> Forall (resolvesBook db) bs ->
  incl oids (map b_id (BookModel db)).
Proof.
  revert oids. induction bs as [|s bs IH]; simpl; intros oids H Hall.
  - inversion H. intros x [].
  - destruct (parseObjectId s) as [oid|] eqn:E; [|discriminate].
    destruct (castIn bs) as [v|oids']; [discriminate|].
    inversion H; subst. inversion Hall as [|? ? [bk [Hin Hp]] Hrest]; subst.
    intros x [<-|Hx].
    + rewrite E in Hp. inversion Hp. now apply in_map.
    + now apply (IH oids' eq_refl Hrest).
Qed.

(** The two validation steps and the [reduce], on references that denote
    pairwise distinct identifiers, each of a stored book: the query
    returns as many documents as there are references, and the sum is the
    exact sum of the referenced books' prices. *)
Lemma validated_total (db : Db) (bs : list string) (oids : list ObjectId) :
  uniqueBookIds db ->
  castIn bs = inr oids ->
  NoDup oids ->
  Forall (resolvesBook db) bs ->
  let present := matching oids (BookModel db) in
  List.length present = List.length bs /\ total present = sumPrices db bs.
Proof.
  intros Huniq Ec Hnd Hall present.
  pose proof (castIn_resolved db bs oids Ec Hall) as Hincl.
  pose proof (present_all (BookModel db) oids Huniq Hnd Hincl) as Hperm.
  fold present in Hperm. split.
  - rewrite <- (castIn_length bs oids Ec), <- (Permutation_length Hperm).
    symmetry. apply length_map.
  - rewrite total_sumZ, (sumPrices_by_id db bs oids Ec).
    rewrite (prices_by_id db present Huniq).
    + apply sumZ_Permutation. now apply Permutation_map.
    + intros x Hx. unfold present in Hx. apply filter_In in Hx. tauto.
Qed.

(** An order for one book of the catalog, by an existing user, is placed:
    the answer is 201 and the stored order carries the book's price. *)
Lemma post_order_one_book (oid : ObjectId) (u b : string) (db : Db) :
  uniqueBookIds db -> resolvesUser db u -> resolvesBook db b ->
  exists uid bid,
    parseObjectId u = Some uid /\ parseObjectId b = Some bid /\
    post_order oid u [b] db =
    (mkResponse 201 (OrderPlaced "Order placed successfully"
                       (mkOrder oid (Some uid) (Some bid) (Some (sumPrices db [b])))),
     insertOrder db (mkOrder oid (Some uid) (Some bid) (Some (sumPrices db [b])))).
Proof.
  intros Huniq Hu Hb.
  destruct (resolvesUser_find db u Hu) as [uid [usr [Eu Ef]]].
  destruct Hb as [bk [Hin Eb]].
  exists uid, (b_id bk). split; [assumption|]. split; [assumption|].
  assert (Ec : castIn [b] = inr [b_id bk]) by (simpl; now rewrite Eb).
  destruct (validated_total db [b] [b_id bk] Huniq Ec) as [Hlen Htot].
  { constructor; [intros []|constructor]. }
  { constructor; [|constructor]. now exists bk. }
  rewrite post_order_run, Eu, Ef, Ec. cbv zeta.
  rewrite Hlen, Nat.eqb_refl, castObjectId_Arr, Eb.
  unfold placed. now rewrite Htot.
Qed.

(** Two references to the same book: the query returns the book once, so
    the count comparison answers 400 although every reference resolves. *)
Lemma post_order_repeated (oid : ObjectId) (u : string) (bs : list string)
      (oids : list ObjectId) (db : Db) :
  uniqueBookIds db -> resolvesUser db u ->
  castIn bs = inr oids -> ~ NoDup oids ->
  post_order oid u bs db = (mkResponse 400 (Message "Books not found"), db).
Proof.
  intros Huniq Hu Ec Hdup.
  destruct (resolvesUser_find db u Hu) as [uid [usr [Eu Ef]]].
  pose proof (present_dup (BookModel db) oids Huniq Hdup) as Hlt.
  rewrite (castIn_length bs oids Ec) in Hlt.
  rewrite post_order_run, Eu, Ef, Ec. cbv zeta.
  destruct (Nat.eqb_spec
              (List.length (matching oids (BookModel db)))
              (List.length bs)) as [E|_]; [lia | reflexivity].
Qed.

(* ================================================================== *)
(** * Placing an order: what the schema lets through *)
(* ================================================================== *)

(** The same library, asked for one book and then listed. *)
Example post_order_B1 :
  post_order O1 U1 [B1] library =
  (mkResponse 201 (OrderPlaced "Order placed successfully"
                     (mkOrder O1 (Some U1) (Some B1) (Some 50%Z))),
   mkDb [alice] [book1; book2] [mkOrder O1 (Some U1) (Some B1) (Some 50%Z)]).
Proof. reflexivity. Qed.

Example get_orders_after_B1 :
  fst (get_orders (snd (post_order O1 U1 [B1] library))) =
  mkResponse 200
    (PopulatedOrders [mkPopulated O1 (Some alice) (Some book1) (Some 50%Z)]).
Proof. reflexivity. Qed.

Example post_order_B1_twice :
  post_order O1 U1 [B1; B1] library =
  (mkResponse 400 (Message "Books not found"), library).
Proof. reflexivity. Qed.

(** C1, on the code.  A request with two or more book references is
    never answered 201 and stores nothing, whether or not the user and
    the books exist: when both validations pass, the array does not cast
    to the single ObjectId of [orderSchema.books] and [save] rejects the
    document. *)
Theorem post_order_several_books
        (oid : ObjectId) (u b1 b2 : string) (bs : list string) (db : Db) :
  status (fst (post_order oid u (b1 :: b2 :: bs) db)) <> 201 /\
  snd (post_order oid u (b1 :: b2 :: bs) db) = db.
Proof.
  assert (N : status (fst (post_order oid u (b1 :: b2 :: bs) db)) <> 201).
  { intros E.
    destruct (post_order_201 oid u (b1 :: b2 :: bs) db E)
      as [uid [usr [b [bid [_ [_ [Hbs _]]]]]]].
    discriminate. }
  split; [exact N | now apply post_order_not_201].
Qed.

(** C4, on the code.  With user U1 and the books B1 (price 50) and B2
    (price 60) stored, the request [{ user: U1, books: [B1, B2] }] passes
    both validations and is then rejected by [save]: the answer is 500
    with the validation error of path [books], and no order is stored. *)
Theorem post_order_B1_B2 :
  resolvesUser library U1 /\
  Forall (resolvesBook library) [B1; B2] /\
  total (matching [B1; B2] (BookModel library)) = 110%Z /\
  post_order O1 U1 [B1; B2] library =
  (mkResponse 500
     (ErrorMessage (ValidationError "Order" [("books", Arr [B1; B2])])),
   library).
Proof.
  split; [exact library_has_alice|].
  split.
  - constructor; [exists book1; split; [now left | reflexivity]|].
    constructor; [exists book2; split; [right; now left | reflexivity]|].
    constructor.
  - split; reflexivity.
Qed.

Lemma matching_nil (cat : list Book) : matching [] cat = [].
Proof. unfold matching. induction cat as [|b cat IH]; simpl; auto. Qed.

(** C9, on the code.  With an existing user and an empty list of book
    references neither validation rejects the request (the count
    comparison is 0 against 0), but the empty array does not cast to the
    ObjectId of [orderSchema.books]: [save] rejects the document, the
    answer is 500 and nothing is stored. *)
Theorem post_order_no_books (oid : ObjectId) (u : string) (db : Db) :
  resolvesUser db u ->
  post_order oid u [] db =
  (mkResponse 500 (ErrorMessage (ValidationError "Order" [("books", Arr [])])),
   db).
Proof.
  intros Hu.
  destruct (resolvesUser_find db u Hu) as [uid [usr [Eu Ef]]].
  rewrite post_order_run, Eu, Ef.
  change (castIn []) with (@inr Value (list ObjectId) []). cbv iota zeta.
  now rewrite matching_nil.
Qed.

Lemma post_order_no_books_witness :
  post_order O1 U1 [] library =
  (mkResponse 500 (ErrorMessage (ValidationError "Order" [("books", Arr [])])),
   library).
Proof.
  apply (post_order_no_books O1 U1 library). exact library_has_alice.
Defined.

(* ================================================================== *)
(** * The book router: one book *)
(* ================================================================== *)

Lemma unresolved_book_find (db : Db) (ref : string) (oid : ObjectId) :
  parseObjectId ref = Some oid -> ~ resolvesBook db ref ->
  find (fun b => String.eqb (b_id b) oid) (BookModel db) = None.
Proof.
  intros E Hno.
  destruct (find _ (BookModel db)) as [bk|] eqn:F; [|reflexivity].
  exfalso. apply Hno. apply find_some in F. destruct F as [Hin Heq].
  apply String.eqb_eq in Heq. exists bk. split; [assumption|congruence].
Qed.

Lemma resolvesBook_after_find (db : Db) (ref : string) (oid : ObjectId) (bk : Book) :
  parseObjectId ref = Some oid ->
  find (fun b => String.eqb (b_id b) oid) (BookModel db) = Some bk ->
  resolvesBook db ref.
Proof.
  intros E F. apply find_some in F. destruct F as [Hin Heq].
  apply String.eqb_eq in Heq. exists bk. split; [assumption|congruence].
Qed.

(** [GET /books/:id] as a case analysis on the cast and the lookup. *)
Lemma get_books_id_run (BookID : string) (db : Db) :
  get_books_id BookID db =
  match parseObjectId BookID with
  | None =>
      mkOutcome
        (Some (mkSent 500 (JError (Mongoose (CastError "Book" "_id" (Str BookID))))))
        None db
  | Some oid =>
      match find (fun b => String.eqb (b_id b) oid) (BookModel db) with
      | Some bk => mkOutcome (Some (mkSent 200 (JBookData (Some bk)))) None db
      | None =>
          mkOutcome (Some (mkSent 404 (JMessage "Book Not Found")))
                    (Some ERR_HTTP_HEADERS_SENT) db
      end
  end.
Proof.
  unfold get_books_id, handle, tryCatch, hbind, mongoose, BookModel_findById.
  unfold castObjectId, toString.
  destruct (parseObjectId BookID) as [oid|]; [|reflexivity].
  unfold bind, get, ret.
  destruct (find _ (BookModel db)); reflexivity.
Qed.

(** [GET /books/:id] with the identifier of a stored book answers 200
    with that book, once, and changes nothing. *)
Theorem get_books_id_found (ref : string) (bk : Book) (db : Db) :
  uniqueBookIds db ->
  In bk (BookModel db) ->
  parseObjectId ref = Some (b_id bk) ->
  get_books_id ref db =
  mkOutcome (Some (mkSent 200 (JBookData (Some bk)))) None db.
Proof.
  intros Huniq Hin E. rewrite get_books_id_run, E.
  now rewrite (find_unique (BookModel db) bk Huniq Hin).
Qed.

Lemma library_has_book1 : In book1 (BookModel library).
Proof. now left. Defined.

Lemma get_books_id_found_witness :
  get_books_id B1 library =
  mkOutcome (Some (mkSent 200 (JBookData (Some book1)))) None library.
Proof.
  apply (get_books_id_found B1 book1 library).
  - exact library_unique.
  - exact library_has_book1.
  - reflexivity.
Defined.

(** [GET /books/:id] with a well-formed identifier that no book carries:
    the client gets 404 "Book Not Found", but the handler does not return
    after sending it; the second [res.status(200).json] throws on the sent
    response, so does the [res.status(500).json] of the [catch] block,
    and the handler ends rejected with that error.  Nothing is written. *)
Theorem get_books_id_not_found (ref : string) (oid : ObjectId) (db : Db) :
  parseObjectId ref = Some oid ->
  ~ resolvesBook db ref ->
  get_books_id ref db =
  mkOutcome (Some (mkSent 404 (JMessage "Book Not Found")))
            (Some ERR_HTTP_HEADERS_SENT) db.
Proof.
  intros E Hno. rewrite get_books_id_run, E.
  now rewrite (unresolved_book_find db ref oid E Hno).
Qed.

Lemma library_has_no_book_O1 : ~ resolvesBook library O1.
Proof. intros [bk [[<-|[<-|[]]] E]]; discriminate. Defined.

Lemma get_books_id_not_found_witness :
  get_books_id O1 library =
  mkOutcome (Some (mkSent 404 (JMessage "Book Not Found")))
            (Some ERR_HTTP_HEADERS_SENT) library.
Proof.
  apply (get_books_id_not_found O1 O1 library).
  - reflexivity.
  - exact library_has_no_book_O1.
Defined.

(** [GET /books/:id] is rejected exactly when it answered 404, answers
    200 only with a stored book in the body, and never changes the
    collections. *)
Theorem get_books_id_outcomes (ref : string) (db : Db) :
  after (get_books_id ref db) = db /\
  (rejected (get_books_id ref db) <> None <->
   response (get_books_id ref db) =
     Some (mkSent 404 (JMessage "Book Not Found"))) /\
  (forall s, response (get_books_id ref db) = Some s -> code s = 200 ->
             exists bk, json s = JBookData (Some bk) /\ In bk (BookModel db) /\
                        parseObjectId ref = Some (b_id bk)).
Proof.
  rewrite get_books_id_run.
  destruct (parseObjectId ref) as [oid|] eqn:E.
  - destruct (find _ (BookModel db)) as [bk|] eqn:F; cbn.
    + split; [reflexivity|]. split.
      * split; [intros H; now elim H | discriminate].
      * intros s Hs _. inversion Hs; subst s. exists bk.
        apply find_some in F. destruct F as [Hin Heq].
        apply String.eqb_eq in Heq. cbn. split; [reflexivity|].
        split; [assumption | congruence].
    + split; [reflexivity|]. split.
      * split; [reflexivity | discriminate].
      * intros s Hs Hc. inversion Hs; subst s. discriminate.
  - cbn. split; [reflexivity|]. split.
    + split; [intros H; now elim H | discriminate].
    + intros s Hs Hc. inversion Hs; subst s. discriminate.
Qed.

Lemma get_books_id_outcomes_witness :
  exists bk, In bk (BookModel library) /\ parseObjectId B2 = Some (b_id bk).
Proof.
  destruct (get_books_id_outcomes B2 library) as [_ [_ H]].
  destruct (H (mkSent 200 (JBookData (Some book2))) eq_refl eq_refl)
    as [bk [_ [Hin Hp]]].
  exists bk. split; assumption.
Defined.

(* ================================================================== *)
(** * The book router: the two handlers of GET /book *)
(* ================================================================== *)

Lemma sameSegment_book_books (seg : string) :
  sameSegment "book" seg = true -> sameSegment "books" seg = false.
Proof.
  unfold sameSegment.
  change (string_map lowerAscii "book") with "book".
  change (string_map lowerAscii "books") with "books".
  intros H. apply String.eqb_eq in H. now rewrite <- H.
Qed.

Lemma dispatch_cons (pattern : list Segment) (h : GetHandler)
      (routes : list (list Segment * GetHandler))
      (path : list string) (q : Query) (db : Db) :
  dispatch ((pattern, h) :: routes) path q db =
  match matchPath pattern path with
  | Some params => Some (h params q db)
  | None => dispatch routes path q db
  end.
Proof. reflexivity. Qed.

(** The second handler registered for [GET /book], the one that filters
    by author and category, is never run: for every request the router
    answers as it would without that registration. *)
Theorem second_book_handler_unreachable
        (ignoreUndefined : bool) (path : list string) (q : Query) (db : Db) :
  dispatch (bookRouter_get ignoreUndefined) path q db =
  dispatch (removelast (bookRouter_get ignoreUndefined)) path q db.
Proof.
  unfold bookRouter_get. cbn [removelast].
  rewrite !dispatch_cons.
  destruct (matchPath [Lit "books"] path); [reflexivity|].
  destruct (matchPath [Lit "books"; Param] path); [reflexivity|].
  destruct (matchPath [Lit "book"] path); reflexivity.
Qed.

Lemma get_book_category_run (iu : bool) (c : string) (db : Db) :
  get_book_category iu (Some c) db =
  mkOutcome
    (Some (mkSent 200
             (JBooks (filter (fun b => String.eqb (b_category b) c) (BookModel db)))))
    None db.
Proof. reflexivity. Qed.

(** [GET /book?author=..&category=..] goes to the handler that filters by
    category alone: the answer is 200 with exactly the books of the
    category, whoever their author is, whatever [author] says. *)
Theorem get_book_author_ignored
        (ignoreUndefined : bool) (seg c : string) (q : Query) (db : Db) :
  sameSegment "book" seg = true ->
  q_category q = Some c ->
  exists l,
    dispatch (bookRouter_get ignoreUndefined) [seg] q db =
      Some (mkOutcome (Some (mkSent 200 (JBooks l))) None db) /\
    forall b, In b l <-> In b (BookModel db) /\ b_category b = c.
Proof.
  intros Hseg Hc.
  exists (filter (fun b => String.eqb (b_category b) c) (BookModel db)).
  split.
  - unfold bookRouter_get. rewrite !dispatch_cons.
    cbn [matchPath]. rewrite (sameSegment_book_books seg Hseg), Hseg.
    now rewrite Hc, get_book_category_run.
  - intros b. rewrite filter_In, String.eqb_eq. reflexivity.
Qed.

Lemma get_book_author_ignored_witness :
  exists l,
    dispatch (bookRouter_get false) ["Book"]
             (mkQuery (Some "Author 2") (Some "Fiction")) library =
    Some (mkOutcome (Some (mkSent 200 (JBooks l))) None library) /\
    In book1 l /\ b_author book1 = "Author 1".
Proof.
  destruct (get_book_author_ignored false "Book" "Fiction"
              (mkQuery (Some "Author 2") (Some "Fiction")) library
              eq_refl eq_refl) as [l [E H]].
  exists l. split; [exact E|]. split; [|reflexivity].
  apply H. split; [now left | reflexivity].
Defined.

(* ================================================================== *)
(** * The book router: updating a book *)
(* ================================================================== *)

Lemma patch_books_id_run (ref : string) (u : BookUpdate) (db : Db) :
  patch_books_id ref u db =
  match parseObjectId ref with
  | None =>
      mkOutcome
        (Some (mkSent 500 (JError (Mongoose (CastError "Book" "_id" (Str ref))))))
        None db
  | Some oid =>
      match find (fun b => String.eqb (b_id b) oid) (BookModel db) with
      | None => mkOutcome (Some (mkSent 404 (JMessage "Book not found"))) None db
      | Some _ =>
          mkOutcome (Some (mkSent 204 (JMessage "Book Updated"))) None
                    (withBooks db (updateOne oid u (BookModel db)))
      end
  end.
Proof.
  unfold patch_books_id, handle, tryCatch, hbind, mongoose,
    BookModel_findByIdAndUpdate.
  unfold castObjectId, toString.
  destruct (parseObjectId ref) as [oid|]; [|reflexivity].
  destruct (find _ (BookModel db)); reflexivity.
Qed.

Lemma applyUpdate_id (u : BookUpdate) (b : Book) : b_id (applyUpdate u b) = b_id b.
Proof. reflexivity. Qed.

Lemma applyUpdate_noUpdate (b : Book) : applyUpdate noUpdate b = b.
Proof. now destruct b. Qed.


Lemma updateOne_ids (oid : ObjectId) (u : BookUpdate) (l : list Book) :
  map b_id (updateOne oid u l) = map b_id l.
Proof.
  induction l as [|b l IH]; cbn [updateOne map]; [reflexivity|].
  destruct (String.eqb (b_id b) oid); cbn [map]; [reflexivity|].
  now rewrite IH.
Qed.

Lemma updateOne_find (oid : ObjectId) (u : BookUpdate) (l : list Book) :
  find (fun b => String.eqb (b_id b) oid) (updateOne oid u l) =
  option_map (applyUpdate u) (find (fun b => String.eqb (b_id b) oid) l).
Proof.
  induction l as [|b l IH]; cbn [updateOne find]; [reflexivity|].
  destruct (String.eqb (b_id b) oid) eqn:E; cbn [find].
  - rewrite applyUpdate_id, E. reflexivity.
  - now rewrite E.
Qed.

Lemma updateOne_find_other (oid other : ObjectId) (u : BookUpdate) (l : list Book) :
  other <> oid ->
  find (fun b => String.eqb (b_id b) other) (updateOne oid u l) =
  find (fun b => String.eqb (b_id b) other) l.
Proof.
  intros Hne. induction l as [|b l IH]; cbn [updateOne find]; [reflexivity|].
  destruct (String.eqb_spec (b_id b) oid) as [E|N]; cbn [find].
  - rewrite applyUpdate_id.
    destruct (String.eqb_spec (b_id b) other) as [E'|_]; [congruence|reflexivity].
  - destruct (String.eqb (b_id b) other); [reflexivity | exact IH].
Qed.


Lemma updateOne_noUpdate (oid : ObjectId) (l : list Book) :
  updateOne oid noUpdate l = l.
Proof.
  induction l as [|b l IH]; cbn [updateOne]; [reflexivity|].
  destruct (String.eqb (b_id b) oid).
  - now rewrite applyUpdate_noUpdate.
  - now rewrite IH.
Qed.

Lemma updateOne_others (oid : ObjectId) (u : BookUpdate) (l : list Book) (b : Book) :
  In b l -> b_id b <> oid -> In b (updateOne oid u l).
Proof.
  intros Hin Hne. induction l as [|c l IH]; cbn [updateOne]; [contradiction|].
  destruct Hin as [->|Hin].
  - destruct (String.eqb_spec (b_id b) oid); [contradiction | now left].
  - destruct (String.eqb (b_id c) oid); right; auto.
Qed.

(** [PATCH /books/:id] with a well-formed identifier that no book carries
    answers 404 "Book not found" and changes nothing. *)
Theorem patch_books_id_not_found
        (ref : string) (oid : ObjectId) (u : BookUpdate) (db : Db) :
  parseObjectId ref = Some oid ->
  ~ resolvesBook db ref ->
  patch_books_id ref u db =
  mkOutcome (Some (mkSent 404 (JMessage "Book not found"))) None db.
Proof.
  intros E Hno. rewrite patch_books_id_run, E.
  now rewrite (unresolved_book_find db ref oid E Hno).
Qed.

Lemma patch_books_id_not_found_witness :
  patch_books_id O1 (reprice 75) library =
  mkOutcome (Some (mkSent 404 (JMessage "Book not found"))) None library.
Proof.
  apply (patch_books_id_not_found O1 O1 (reprice 75) library).
  - reflexivity.
  - exact library_has_no_book_O1.
Defined.

(** [PATCH /books/:id] on a stored book answers 204 and rewrites that one
    document: the catalog keeps its identifiers in their order, the book
    now reads as its update, every other book is still there, and the
    users and orders are as before. *)
Theorem patch_books_id_updates
        (ref : string) (bk : Book) (u : BookUpdate) (db : Db) :
  uniqueBookIds db ->
  In bk (BookModel db) ->
  parseObjectId ref = Some (b_id bk) ->
  response (patch_books_id ref u db) = Some (mkSent 204 (JMessage "Book Updated")) /\
  rejected (patch_books_id ref u db) = None /\
  UserModel (after (patch_books_id ref u db)) = UserModel db /\
  OrderModel (after (patch_books_id ref u db)) = OrderModel db /\
  map b_id (BookModel (after (patch_books_id ref u db))) = map b_id (BookModel db) /\
  lookupBook (after (patch_books_id ref u db)) (Some (b_id bk)) =
    Some (applyUpdate u bk) /\
  (forall b, In b (BookModel db) -> b_id b <> b_id bk ->
             In b (BookModel (after (patch_books_id ref u db)))).
Proof.
  intros Huniq Hin E. rewrite patch_books_id_run, E.
  rewrite (find_unique (BookModel db) bk Huniq Hin).
  cbn [response rejected after withBooks UserModel BookModel OrderModel lookupBook].
  repeat split.
  - apply updateOne_ids.
  - rewrite updateOne_find. now rewrite (find_unique (BookModel db) bk Huniq Hin).
  - intros b Hb Hne. now apply updateOne_others.
Qed.

Lemma patch_books_id_updates_witness :
  lookupBook (after (patch_books_id B1 (reprice 75) library)) (Some B1) =
  Some (mkBook B1 "Book 1" "Author 1" "Fiction" 75 3).
Proof.
  destruct (patch_books_id_updates B1 book1 (reprice 75) library
              library_unique library_has_book1 eq_refl)
    as [_ [_ [_ [_ [_ [H _]]]]]].
  exact H.
Defined.

(** [PATCH /books/:id] with an empty body changes nothing, whatever the
    identifier is (it still answers 204 when the book exists). *)
Theorem patch_books_id_empty (ref : string) (db : Db) :
  after (patch_books_id ref noUpdate db) = db.
Proof.
  rewrite patch_books_id_run.
  destruct (parseObjectId ref) as [oid|]; [|reflexivity].
  destruct (find _ (BookModel db)); [|reflexivity].
  cbn [after]. unfold withBooks. rewrite updateOne_noUpdate. now destruct db.
Qed.


(* ================================================================== *)
(** * The book router: deleting a book *)
(* ================================================================== *)

Lemma delete_books_id_run (ref : string) (db : Db) :
  delete_books_id ref db =
  match parseObjectId ref with
  | None =>
      mkOutcome
        (Some (mkSent 500 (JError (Mongoose (CastError "Book" "_id" (Str ref))))))
        None db
  | Some oid =>
      mkOutcome (Some (mkSent 202 (JMessage "Book Deleted"))) None
                (withBooks db (deleteOne oid (BookModel db)))
  end.
Proof.
  unfold delete_books_id, handle, tryCatch, hbind, mongoose,
    BookModel_findByIdAndDelete.
  unfold castObjectId, toString.
  destruct (parseObjectId ref) as [oid|]; reflexivity.
Qed.

Lemma deleteOne_absent (oid : ObjectId) (l : list Book) :
  find (fun b => String.eqb (b_id b) oid) l = None -> deleteOne oid l = l.
Proof.
  induction l as [|b l IH]; cbn [deleteOne find]; [reflexivity|].
  destruct (String.eqb (b_id b) oid); [discriminate|].
  intros H. now rewrite IH.
Qed.

Lemma deleteOne_In (oid : ObjectId) (l : list Book) (b : Book) :
  In b (deleteOne oid l) -> In b l.
Proof.
  induction l as [|c l IH]; cbn [deleteOne]; [auto|].
  destruct (String.eqb (b_id c) oid).
  - intros H. now right.
  - intros [->|H]; [now left | right; auto].
Qed.

Lemma deleteOne_others (oid : ObjectId) (l : list Book) (b : Book) :
  In b l -> b_id b <> oid -> In b (deleteOne oid l).
Proof.
  intros Hin Hne. induction l as [|c l IH]; cbn [deleteOne]; [contradiction|].
  destruct Hin as [->|Hin].
  - destruct (String.eqb_spec (b_id b) oid); [contradiction | now left].
  - destruct (String.eqb (b_id c) oid); [assumption | right; auto].
Qed.

Lemma deleteOne_gone (oid : ObjectId) (l : list Book) :
  NoDup (map b_id l) -> ~ In oid (map b_id (deleteOne oid l)).
Proof.
  induction l as [|b l IH]; cbn [deleteOne map]; intros Hnd; [auto|].
  inversion Hnd as [|? ? Hn Hl]; subst.
  destruct (String.eqb_spec (b_id b) oid) as [E|N].
  - now rewrite <- E.
  - cbn [map]. intros [H|H]; [contradiction | now apply IH].
Qed.

Lemma deleteOne_NoDup (oid : ObjectId) (l : list Book) :
  NoDup (map b_id l) -> NoDup (map b_id (deleteOne oid l)).
Proof.
  induction l as [|b l IH]; cbn [deleteOne map]; intros Hnd; [constructor|].
  inversion Hnd as [|? ? Hn Hl]; subst.
  destruct (String.eqb (b_id b) oid); [assumption|].
  cbn [map]. constructor; [|auto].
  intros H. apply Hn. apply in_map_iff in H. destruct H as [c [E Hc]].
  apply in_map_iff. exists c. split; [assumption|]. now apply deleteOne_In in Hc.
Qed.

Lemma deleteOne_length (oid : ObjectId) (l : list Book) (bk : Book) :
  find (fun b => String.eqb (b_id b) oid) l = Some bk ->
  S (List.length (deleteOne oid l)) = List.length l.
Proof.
  induction l as [|b l IH]; cbn [deleteOne find]; [discriminate|].
  destruct (String.eqb (b_id b) oid); [reflexivity|].
  intros H. cbn [List.length]. now rewrite IH.
Qed.

Lemma find_absent_ids (oid : ObjectId) (l : list Book) :
  ~ In oid (map b_id l) ->
  find (fun b => String.eqb (b_id b) oid) l = None.
Proof.
  intros Hno. destruct (find _ l) as [bk|] eqn:F; [|reflexivity].
  exfalso. apply Hno. apply find_some in F. destruct F as [Hin Heq].
  apply String.eqb_eq in Heq. rewrite <- Heq. now apply in_map.
Qed.

(** [DELETE /books/:id] has no "not found" answer: every well-formed
    identifier is answered 202 "Book Deleted"; when no book carries it,
    nothing has changed.  The users and the orders are never touched. *)
Theorem delete_books_id_always_202 (ref : string) (oid : ObjectId) (db : Db) :
  parseObjectId ref = Some oid ->
  response (delete_books_id ref db) = Some (mkSent 202 (JMessage "Book Deleted")) /\
  rejected (delete_books_id ref db) = None /\
  UserModel (after (delete_books_id ref db)) = UserModel db /\
  OrderModel (after (delete_books_id ref db)) = OrderModel db /\
  (~ resolvesBook db ref -> after (delete_books_id ref db) = db).
Proof.
  intros E. rewrite delete_books_id_run, E.
  cbn [response rejected after withBooks UserModel OrderModel].
  repeat split. intros Hno.
  rewrite (deleteOne_absent oid (BookModel db)
             (unresolved_book_find db ref oid E Hno)).
  now destruct db.
Qed.

Lemma delete_books_id_always_202_witness :
  response (delete_books_id O1 library) =
    Some (mkSent 202 (JMessage "Book Deleted")) /\
  after (delete_books_id O1 library) = library.
Proof.
  destruct (delete_books_id_always_202 O1 O1 library eq_refl)
    as [H [_ [_ [_ Hsame]]]].
  split; [exact H | exact (Hsame library_has_no_book_O1)].
Defined.

(** [DELETE /books/:id] on a stored book removes exactly that document:
    the catalog is one shorter, keeps its identifiers unique, holds the
    books with other identifiers and no others, and a following
    [GET /books/:id] for the same identifier is answered 404. *)
Theorem delete_books_id_removes (ref : string) (bk : Book) (db : Db) :
  uniqueBookIds db ->
  In bk (BookModel db) ->
  parseObjectId ref = Some (b_id bk) ->
  S (List.length (BookModel (after (delete_books_id ref db)))) =
    List.length (BookModel db) /\
  uniqueBookIds (after (delete_books_id ref db)) /\
  (forall b, In b (BookModel (after (delete_books_id ref db))) <->
             In b (BookModel db) /\ b_id b <> b_id bk) /\
  response (get_books_id ref (after (delete_books_id ref db))) =
    Some (mkSent 404 (JMessage "Book Not Found")).
Proof.
  intros Huniq Hin E. rewrite delete_books_id_run, E.
  cbn [after]. unfold uniqueBookIds, withBooks. cbn [BookModel].
  pose proof (deleteOne_gone (b_id bk) (BookModel db) Huniq) as Hgone.
  split; [|split; [|split]].
  - apply (deleteOne_length (b_id bk) (BookModel db) bk).
    now apply find_unique.
  - now apply deleteOne_NoDup.
  - intros b. split.
    + intros Hb. split; [now apply deleteOne_In in Hb|].
      intros Heq. apply Hgone. apply in_map_iff. now exists b.
    + intros [Hb Hne]. now apply deleteOne_others.
  - rewrite get_books_id_run, E. cbn [BookModel].
    now rewrite (find_absent_ids (b_id bk) _ Hgone).
Qed.

Lemma delete_books_id_removes_witness :
  BookModel (after (delete_books_id B1 library)) = [book2] /\
  response (get_books_id B1 (after (delete_books_id B1 library))) =
    Some (mkSent 404 (JMessage "Book Not Found")).
Proof.
  destruct (delete_books_id_removes B1 book1 library
              library_unique library_has_book1 eq_refl) as [_ [_ [_ H]]].
  split; [reflexivity | exact H].
Defined.

(* ================================================================== *)
(** * Orders against a changing catalog *)
(* ================================================================== *)

Lemma get_orders_response (db : Db) :
  fst (get_orders db) =
  mkResponse 200 (PopulatedOrders (map (populated db) (OrderModel db))).
Proof. now rewrite get_orders_run. Qed.

(** The total of an order is fixed when the order is placed.  After a
    [PATCH /books/:id], whatever it changes, [GET /orders] lists the same
    orders with the same [totalAmount]; only the [books] field of an order
    of the patched book follows the catalog and shows the updated
    document. *)
Theorem totals_survive_patch
        (ref : string) (oid : ObjectId) (u : BookUpdate) (db : Db) :
  parseObjectId ref = Some oid ->
  OrderModel (after (patch_books_id ref u db)) = OrderModel db /\
  exists l,
    fst (get_orders (after (patch_books_id ref u db))) =
      mkResponse 200 (PopulatedOrders l) /\
    Forall2 (fun o r =>
               p_totalAmount r = totalAmount o /\
               (books o = Some oid ->
                p_books r = option_map (applyUpdate u) (lookupBook db (books o))))
            (OrderModel db) l.
Proof.
  intros E.
  assert (Ho : OrderModel (after (patch_books_id ref u db)) = OrderModel db).
  { rewrite patch_books_id_run, E.
    destruct (find _ (BookModel db)); reflexivity. }
  split; [exact Ho|].
  exists (map (populated (after (patch_books_id ref u db))) (OrderModel db)).
  split; [now rewrite get_orders_response, Ho|].
  apply Forall2_populated. intros o _. cbn [populated p_totalAmount p_books].
  split; [reflexivity|]. intros Hb. rewrite Hb. cbn [lookupBook].
  rewrite patch_books_id_run, E.
  destruct (find (fun b => String.eqb (b_id b) oid) (BookModel db)) eqn:F;
    cbn [after withBooks BookModel].
  - now rewrite updateOne_find, F.
  - now rewrite F.
Qed.

Lemma totals_survive_patch_witness :
  exists r,
    fst (get_orders (after (patch_books_id B1 (reprice 75) ordered))) =
      mkResponse 200 (PopulatedOrders [r]) /\
    p_totalAmount r = Some 50%Z /\
    p_books r = Some (mkBook B1 "Book 1" "Author 1" "Fiction" 75 3).
Proof.
  destruct (totals_survive_patch B1 B1 (reprice 75) ordered eq_refl)
    as [_ [l [E F]]].
  inversion F as [|o r os rs [Ht Hb] Frest]; subst.
  inversion Frest; subst.
  exists r. split; [exact E|]. split; [exact Ht | exact (Hb eq_refl)].
Defined.

(** Deleting a book does not touch the orders that refer to it: after a
    [DELETE /books/:id], [GET /orders] lists the same orders with the same
    [totalAmount], and an order of the deleted book has [null] in its
    [books] field. *)
Theorem orders_survive_delete (ref : string) (oid : ObjectId) (db : Db) :
  uniqueBookIds db ->
  parseObjectId ref = Some oid ->
  OrderModel (after (delete_books_id ref db)) = OrderModel db /\
  exists l,
    fst (get_orders (after (delete_books_id ref db))) =
      mkResponse 200 (PopulatedOrders l) /\
    Forall2 (fun o r =>
               p_id r = _id o /\
               p_totalAmount r = totalAmount o /\
               (books o = Some oid -> p_books r = None))
            (OrderModel db) l.
Proof.
  intros Huniq E.
  assert (Ho : OrderModel (after (delete_books_id ref db)) = OrderModel db).
  { now rewrite delete_books_id_run, E. }
  split; [exact Ho|].
  exists (map (populated (after (delete_books_id ref db))) (OrderModel db)).
  split; [now rewrite get_orders_response, Ho|].
  apply Forall2_populated. intros o _.
  cbn [populated p_id p_totalAmount p_books].
  split; [reflexivity|]. split; [reflexivity|].
  intros Hb. rewrite Hb. cbn [lookupBook].
  rewrite delete_books_id_run, E. cbn [after withBooks BookModel].
  apply find_absent_ids. now apply deleteOne_gone.
Qed.

Lemma ordered_unique : uniqueBookIds ordered.
Proof. exact library_unique. Defined.

Lemma orders_survive_delete_witness :
  exists r,
    fst (get_orders (after (delete_books_id B1 ordered))) =
      mkResponse 200 (PopulatedOrders [r]) /\
    p_totalAmount r = Some 50%Z /\ p_books r = None.
Proof.
  destruct (orders_survive_delete B1 B1 ordered ordered_unique eq_refl)
    as [_ [l [E F]]].
  inversion F as [|o r os rs [_ [Ht Hb]] Frest]; subst.
  inversion Frest; subst.
  exists r. split; [exact E|]. split; [exact Ht | exact (Hb eq_refl)].
Defined.

(* ================================================================== *)
(** * The book router: adding a book *)
(* ================================================================== *)

Lemma post_books_run (oid : ObjectId) (title author category : string)
      (price quantity : Z) (db : Db) :
  post_books oid title author category price quantity db =
  mkOutcome
    (Some (mkSent 201 (JBookAdded "Book added"
                         (mkBook oid title author category price quantity))))
    None
    (withBooks db (BookModel db ++ [mkBook oid title author category price quantity])).
Proof. reflexivity. Qed.

Lemma find_last {A} (f : A -> bool) (l : list A) (x : A) :
  find f l = None -> f x = true -> find f (l ++ [x]) = Some x.
Proof.
  induction l as [|a l IH]; cbn [find app]; intros Hn Hx.
  - now rewrite Hx.
  - destruct (f a); [discriminate | auto].
Qed.

Lemma NoDup_ids_snoc (l : list Book) (b : Book) :
  NoDup (map b_id l) -> ~ In (b_id b) (map b_id l) ->
  NoDup (map b_id (l ++ [b])).
Proof.
  intros Hnd Hfresh. rewrite map_app. cbn [map].
  apply NoDup_incl_NoDup with (l := b_id b :: map b_id l).
  - now constructor.
  - rewrite length_app. cbn. lia.
  - intros x [<-|Hx]; apply in_or_app; [right; now left | now left].
Qed.

(** A book added by [POST /books] is found by [GET /books/:id] under the
    identifier it was given, provided no stored book had that identifier:
    the answer is 200 with the five fields as they were sent. *)
Theorem post_books_then_get
        (oid : ObjectId) (ref title author category : string)
        (price quantity : Z) (db : Db) :
  ~ In oid (map b_id (BookModel db)) ->
  parseObjectId ref = Some oid ->
  get_books_id ref (after (post_books oid title author category price quantity db)) =
  mkOutcome
    (Some (mkSent 200 (JBookData
                         (Some (mkBook oid title author category price quantity)))))
    None
    (after (post_books oid title author category price quantity db)).
Proof.
  intros Hfresh E. rewrite post_books_run. cbn [after].
  rewrite get_books_id_run, E. unfold withBooks. cbn [BookModel].
  rewrite find_last; [reflexivity | now apply find_absent_ids |].
  apply String.eqb_refl.
Qed.

Lemma library_lacks_B3 : ~ In B3 (map b_id (BookModel library)).
Proof. intros [H|[H|[]]]; discriminate. Defined.

Lemma post_books_then_get_witness :
  response (get_books_id B3
              (after (post_books B3 "Book 3" "Author 3" "Poetry" 70 2 library))) =
  Some (mkSent 200 (JBookData (Some (mkBook B3 "Book 3" "Author 3" "Poetry" 70 2)))).
Proof.
  rewrite (post_books_then_get B3 B3 "Book 3" "Author 3" "Poetry" 70 2 library
             library_lacks_B3 eq_refl).
  reflexivity.
Defined.

(** A book added by [POST /books] can be ordered: with unique identifiers
    in the catalog, a fresh identifier for the book and an existing user,
    [POST /order] for that one book answers 201 and stores an order whose
    [totalAmount] is the price the book was added with. *)
Theorem post_books_then_order
        (oid oid' : ObjectId) (u ref title author category : string)
        (price quantity : Z) (db : Db) :
  uniqueBookIds db ->
  ~ In oid (map b_id (BookModel db)) ->
  parseObjectId ref = Some oid ->
  resolvesUser db u ->
  exists uid,
    parseObjectId u = Some uid /\
    post_order oid' u [ref]
               (after (post_books oid title author category price quantity db)) =
    (mkResponse 201
       (OrderPlaced "Order placed successfully"
          (mkOrder oid' (Some uid) (Some oid) (Some price))),
     insertOrder (after (post_books oid title author category price quantity db))
                 (mkOrder oid' (Some uid) (Some oid) (Some price))).
Proof.
  intros Huniq Hfresh E Hu. rewrite post_books_run. cbn [after].
  set (bk := mkBook oid title author category price quantity).
  set (db' := withBooks db (BookModel db ++ [bk])).
  assert (Huniq' : uniqueBookIds db').
  { unfold uniqueBookIds, db', withBooks. cbn [BookModel].
    now apply NoDup_ids_snoc. }
  assert (Hf : find (fun b => String.eqb (b_id b) oid) (BookModel db') = Some bk).
  { unfold db', withBooks. cbn [BookModel].
    apply find_last; [now apply find_absent_ids | apply String.eqb_refl]. }
  assert (Hb : resolvesBook db' ref).
  { exists bk. split; [|exact E].
    unfold db', withBooks. cbn [BookModel]. apply in_or_app. right. now left. }
  destruct (post_order_one_book oid' u ref db' Huniq' Hu Hb)
    as [uid [bid [Eu [Eb R]]]].
  exists uid. split; [exact Eu|].
  rewrite E in Eb. inversion Eb; subst bid.
  rewrite R. unfold sumPrices, priceOf. cbn [fold_right].
  rewrite E, Hf. cbn [b_price bk].
  now rewrite Z.add_0_r.
Qed.

Lemma post_books_then_order_witness :
  fst (post_order O1 U1 [B3]
         (after (post_books B3 "Book 3" "Author 3" "Poetry" 70 2 library))) =
  mkResponse 201
    (OrderPlaced "Order placed successfully"
       (mkOrder O1 (Some U1) (Some B3) (Some 70%Z))).
Proof.
  destruct (post_books_then_order B3 O1 U1 B3 "Book 3" "Author 3" "Poetry" 70 2
              library library_unique library_lacks_B3 eq_refl library_has_alice)
    as [uid [Eu R]].
  vm_compute in Eu. inversion Eu; subst uid. exact (f_equal fst R).
Defined.

(* ================================================================== *)
(** * Placing an order: when it succeeds *)
(* ================================================================== *)

(** With unique identifiers in the catalog, [POST /order] answers 201
    exactly when the user exists and the request names exactly one book,
    which exists. *)
Theorem post_order_201_iff (oid : ObjectId) (u : string) (bs : list string) (db : Db) :
  uniqueBookIds db ->
  (status (fst (post_order oid u bs db)) = 201 <->
   resolvesUser db u /\ exists b, bs = [b] /\ resolvesBook db b).
Proof.
  intros Huniq. split.
  - intros E.
    destruct (post_order_201 oid u bs db E)
      as [uid [usr [b [bid [Eu [Ef [Hbs [Eb [Hlen _]]]]]]]]].
    split.
    + apply find_some in Ef. destruct Ef as [Hin Heq].
      apply String.eqb_eq in Heq. exists usr. split; [assumption|congruence].
    + exists b. split; [assumption|].
      destruct (matching [bid] (BookModel db)) as [|bk rest] eqn:M;
        [discriminate|].
      assert (Hbk : In bk (matching [bid] (BookModel db))) by (rewrite M; now left).
      unfold matching in Hbk. apply filter_In in Hbk. destruct Hbk as [Hin Hm].
      apply memId_In in Hm. destruct Hm as [Hm|[]].
      exists bk. split; [assumption|congruence].
  - intros [Hu [b [-> Hb]]].
    destruct (post_order_one_book oid u b db Huniq Hu Hb) as [uid [bid [_ [_ R]]]].
    now rewrite R.
Qed.

Lemma library_has_B2 : resolvesBook library B2.
Proof. exists book2. split; [right; now left | reflexivity]. Defined.

Lemma post_order_201_iff_witness :
  status (fst (post_order O1 U1 [B2] library)) = 201.
Proof.
  apply (post_order_201_iff O1 U1 [B2] library library_unique).
  split; [exact library_has_alice|].
  exists B2. split; [reflexivity | exact library_has_B2].
Defined.

(** [POST /order] answers in one of four ways: 201, 404 "User not found",
    400 "Books not found", or 500 with the message of a thrown error. *)
Theorem post_order_answers (oid : ObjectId) (u : string) (bs : list string) (db : Db) :
  (exists o, fst (post_order oid u bs db) =
             mkResponse 201 (OrderPlaced "Order placed successfully" o)) \/
  fst (post_order oid u bs db) = mkResponse 404 (Message "User not found") \/
  fst (post_order oid u bs db) = mkResponse 400 (Message "Books not found") \/
  (exists e, fst (post_order oid u bs db) = mkResponse 500 (ErrorMessage e)).
Proof.
  rewrite post_order_run.
  destruct (parseObjectId u) as [uid|]; [|right; right; right; eexists; reflexivity].
  destruct (find _ (UserModel db)); [|right; now left].
  destruct (castIn bs); [right; right; right; eexists; reflexivity|].
  cbv zeta.
  destruct (List.length _ =? List.length bs); [|right; right; now left].
  destruct (castObjectId (Arr bs)) as [[bid|]|].
  - left. eexists. reflexivity.
  - right; right; right. eexists. reflexivity.
  - right; right; right. eexists. reflexivity.
Qed.

Lemma not_NoDup_B1_B1 : ~ NoDup [B1; B1].
Proof. intros H. inversion H as [|? ? Hn _]. apply Hn. now left. Defined.

Lemma post_order_repeated_witness :
  post_order O1 U1 [B1; B1] library =
  (mkResponse 400 (Message "Books not found"), library).
Proof.
  apply (post_order_repeated O1 U1 [B1; B1] [B1; B1] library).
  - exact library_unique.
  - exact library_has_alice.
  - reflexivity.
  - exact not_NoDup_B1_B1.
Defined.

(* ================================================================== *)
(** * Listing the orders: resolved references *)
(* ================================================================== *)

Lemma find_unique_user (l : list User) (usr : User) :
  NoDup (map u_id l) -> In usr l ->
  find (fun x => String.eqb (u_id x) (u_id usr)) l = Some usr.
Proof.
  induction l as [|c l IH]; cbn [find map]; intros Hnd Hin; [contradiction|].
  inversion Hnd as [|? ? Hn Hl]; subst.
  destruct Hin as [->|Hin].
  - now rewrite String.eqb_refl.
  - destruct (String.eqb_spec (u_id c) (u_id usr)) as [E|_].
    + exfalso. apply Hn. rewrite E. now apply in_map.
    + now apply IH.
Qed.

(** With unique identifiers among the users and among the books,
    [GET /orders] puts in place of each reference that resolves the whole
    stored document it names: the user with every field, the password
    hash included, and the book. *)
Theorem get_orders_resolved (db : Db) :
  NoDup (map u_id (UserModel db)) ->
  uniqueBookIds db ->
  exists l,
    get_orders db = (mkResponse 200 (PopulatedOrders l), db) /\
    Forall2 (fun o r =>
               (forall usr, In usr (UserModel db) -> user o = Some (u_id usr) ->
                            p_user r = Some usr /\
                            option_map u_password (p_user r) = Some (u_password usr)) /\
               (forall bk, In bk (BookModel db) -> books o = Some (b_id bk) ->
                           p_books r = Some bk))
            (OrderModel db) l.
Proof.
  intros Hu Hb. exists (map (populated db) (OrderModel db)).
  split; [apply get_orders_run|].
  apply Forall2_populated. intros o _. cbn [populated p_user p_books]. split.
  - intros usr Hin E. rewrite E. cbn [lookupUser].
    now rewrite (find_unique_user (UserModel db) usr Hu Hin).
  - intros bk Hin E. rewrite E. cbn [lookupBook].
    now rewrite (find_unique (BookModel db) bk Hb Hin).
Qed.

Lemma ordered_users_unique : NoDup (map u_id (UserModel ordered)).
Proof. constructor; [intros []|constructor]. Defined.

Lemma get_orders_resolved_witness :
  exists r,
    fst (get_orders ordered) = mkResponse 200 (PopulatedOrders [r]) /\
    option_map u_password (p_user r) = Some "hash" /\
    p_books r = Some book1.
Proof.
  destruct (get_orders_resolved ordered ordered_users_unique ordered_unique)
    as [l [E F]].
  inversion F as [|o r os rs [Hu Hb] Frest]; subst.
  inversion Frest; subst.
  exists r. split; [now rewrite E|]. split.
  - exact (proj2 (Hu alice (or_introl eq_refl) eq_refl)).
  - exact (Hb book1 (or_introl eq_refl) eq_refl).
Defined.

(* ================================================================== *)
(** * The user router *)
(* ================================================================== *)

Section Accounts.

Variable bcrypt_hash : string -> nat -> string -> string.
Variable bcrypt_compare : string -> string -> bool.

Lemma login_run (email password : string) (db : Db) :
  login bcrypt_compare email password db =
  match find (fun x => String.eqb (u_email x) email) (UserModel db) with
  | None => mkOutcome (Some (mkSent 401 (JMessage "User Not Found"))) None db
  | Some usr =>
      if bcrypt_compare password (u_password usr)
      then mkOutcome (Some (mkSent 201 (JToken "User LoggedIn"
                                          (mkToken (u_id usr) "masai" "1h"))))
                     None db
      else mkOutcome (Some (mkSent 401 (JMessage "Wrong Password"))) None db
  end.
Proof.
  unfold login, handle, tryCatch, hbind, mongoose, UserModel_findOne.
  destruct (find _ (UserModel db)) as [usr|]; [|reflexivity].
  cbv zeta. destruct (bcrypt_compare password (u_password usr)); reflexivity.
Qed.

Lemma register_run (oid : ObjectId) (salt name email password : string)
      (isAdmin : bool) (db : Db) :
  register bcrypt_hash oid salt name email password isAdmin db =
  mkOutcome
    (Some (mkSent 201 (JMessage (name ++ " successfully registered")%string)))
    None
    (mkDb (UserModel db
             ++ [mkUser oid name email (bcrypt_hash password 5 salt) isAdmin])
          (BookModel db) (OrderModel db)).
Proof. reflexivity. Qed.

Lemma find_email_none (email : string) (l : list User) :
  (forall x, In x l -> u_email x <> email) ->
  find (fun x => String.eqb (u_email x) email) l = None.
Proof.
  intros Hno. destruct (find _ l) as [usr|] eqn:F; [|reflexivity].
  apply find_some in F. destruct F as [Hin Heq].
  apply String.eqb_eq in Heq. now elim (Hno usr Hin).
Qed.

Lemma find_email_first (email : string) (before rest : list User) (usr : User) :
  (forall x, In x before -> u_email x <> email) ->
  u_email usr = email ->
  find (fun x => String.eqb (u_email x) email) (before ++ usr :: rest) = Some usr.
Proof.
  intros Hno He. induction before as [|a before IH]; cbn [app find].
  - now rewrite He, String.eqb_refl.
  - destruct (String.eqb_spec (u_email a) email) as [E|_].
    + elim (Hno a); [now left | exact E].
    + apply IH. intros x Hx. apply Hno. now right.
Qed.

(** [POST /login] with an e-mail no stored user carries is answered 401
    "User Not Found", whatever the password, and writes nothing. *)
Theorem login_unknown_email (email password : string) (db : Db) :
  (forall x, In x (UserModel db) -> u_email x <> email) ->
  login bcrypt_compare email password db =
  mkOutcome (Some (mkSent 401 (JMessage "User Not Found"))) None db.
Proof.
  intros Hno. rewrite login_run. now rewrite (find_email_none email _ Hno).
Qed.

(** [POST /login] checks the password against the first stored user with
    the e-mail and against no other: when that user's hash matches, the
    answer is 201 with a token signed for that user's [_id] with the key
    "masai" for one hour; otherwise it is 401 "Wrong Password", even if a
    user stored later under the same e-mail has a matching hash. *)
Theorem login_first_account
        (email password : string) (before rest : list User) (usr : User) (db : Db) :
  UserModel db = before ++ usr :: rest ->
  (forall x, In x before -> u_email x <> email) ->
  u_email usr = email ->
  login bcrypt_compare email password db =
  if bcrypt_compare password (u_password usr)
  then mkOutcome (Some (mkSent 201 (JToken "User LoggedIn"
                                      (mkToken (u_id usr) "masai" "1h"))))
                 None db
  else mkOutcome (Some (mkSent 401 (JMessage "Wrong Password"))) None db.
Proof.
  intros Hdb Hno He. rewrite login_run, Hdb.
  now rewrite (find_email_first email before rest usr Hno He).
Qed.

(** Registering and then logging in with the same e-mail and password
    succeeds, provided no stored user had the e-mail before and
    [bcrypt.compare] accepts what [bcrypt.hash] made of the password: the
    answer is 201 with a token for the identifier given at registration. *)
Theorem register_then_login
        (oid : ObjectId) (salt name email password : string) (isAdmin : bool)
        (db : Db) :
  bcrypt_compare password (bcrypt_hash password 5 salt) = true ->
  (forall x, In x (UserModel db) -> u_email x <> email) ->
  response (login bcrypt_compare email password
              (after (register bcrypt_hash oid salt name email password isAdmin db))) =
  Some (mkSent 201 (JToken "User LoggedIn" (mkToken oid "masai" "1h"))).
Proof.
  intros Hc Hno. rewrite register_run. cbn [after].
  rewrite login_run. cbn [UserModel].
  rewrite (find_email_first email (UserModel db) []
             (mkUser oid name email (bcrypt_hash password 5 salt) isAdmin)
             Hno eq_refl).
  cbn [u_password u_id]. now rewrite Hc.
Qed.

End Accounts.

Lemma library_lacks_bob : forall x, In x (UserModel library) -> u_email x <> "bob@example.com".
Proof. intros x [<-|[]]. discriminate. Defined.

Lemma login_unknown_email_witness :
  login toy_compare "bob@example.com" "secret" library =
  mkOutcome (Some (mkSent 401 (JMessage "User Not Found"))) None library.
Proof.
  apply (login_unknown_email toy_compare "bob@example.com" "secret" library).
  exact library_lacks_bob.
Defined.

Lemma login_first_account_witness :
  login toy_compare "alice@example.com" "two" twins =
  mkOutcome (Some (mkSent 401 (JMessage "Wrong Password"))) None twins /\
  toy_compare "two" (u_password alias) = true.
Proof.
  split; [|reflexivity].
  apply (login_first_account toy_compare "alice@example.com" "two"
           [] [alias] (mkUser U1 "Alice" "alice@example.com" "s$one" false) twins).
  - reflexivity.
  - intros x [].
  - reflexivity.
Defined.

Lemma register_then_login_witness :
  response (login toy_compare "bob@example.com" "secret"
              (after (register toy_hash U2 "salt" "Bob" "bob@example.com" "secret"
                               false library))) =
  Some (mkSent 201 (JToken "User LoggedIn" (mkToken U2 "masai" "1h"))).
Proof.
  apply (register_then_login toy_hash toy_compare U2 "salt" "Bob"
           "bob@example.com" "secret" false library).
  - reflexivity.
  - exact library_lacks_bob.
Defined.

(* ================================================================== *)
(** * What the handlers keep *)
(* ================================================================== *)

(** Unique book identifiers are kept by every handler that writes: by
    [PATCH /books/:id] and [DELETE /books/:id] on any identifier, by
    [POST /order] on any body, and by [POST /books] when the identifier
    generated for the new book is not in the catalog yet. *)
Theorem book_ids_stay_unique
        (ref : string) (u : BookUpdate) (oid : ObjectId) (usr : string)
        (bs : list string) (title author category : string) (price quantity : Z)
        (db : Db) :
  uniqueBookIds db ->
  uniqueBookIds (after (patch_books_id ref u db)) /\
  uniqueBookIds (after (delete_books_id ref db)) /\
  uniqueBookIds (snd (post_order oid usr bs db)) /\
  (~ In oid (map b_id (BookModel db)) ->
   uniqueBookIds (after (post_books oid title author category price quantity db))).
Proof.
  intros Huniq. unfold uniqueBookIds in *. repeat split.
  - rewrite patch_books_id_run.
    destruct (parseObjectId ref) as [x|]; [|exact Huniq].
    destruct (find _ (BookModel db)); [|exact Huniq].
    cbn [after withBooks BookModel]. now rewrite updateOne_ids.
  - rewrite delete_books_id_run.
    destruct (parseObjectId ref) as [x|]; [|exact Huniq].
    cbn [after withBooks BookModel]. now apply deleteOne_NoDup.
  - destruct (Nat.eq_dec (status (fst (post_order oid usr bs db))) 201) as [E|N].
    + destruct (post_order_201 oid usr bs db E)
        as [uid [x [b [bid [_ [_ [_ [_ [_ R]]]]]]]]].
      rewrite R. exact Huniq.
    + now rewrite (post_order_not_201 oid usr bs db N).
  - intros Hfresh. rewrite post_books_run. cbn [after withBooks BookModel].
    now apply NoDup_ids_snoc.
Qed.

Lemma book_ids_stay_unique_witness :
  uniqueBookIds (after (patch_books_id B1 (reprice 75) library)) /\
  uniqueBookIds (after (delete_books_id B1 library)) /\
  uniqueBookIds (after (post_books B3 "Book 3" "Author 3" "Poetry" 70 2 library)).
Proof.
  destruct (book_ids_stay_unique B1 (reprice 75) B3 U1 [B1] "Book 3" "Author 3"
              "Poetry" 70 2 library library_unique) as [Hp [Hd [_ Ha]]].
  split; [exact Hp|]. split; [exact Hd | exact (Ha library_lacks_B3)].
Defined.

(** No handler rewrites or removes a stored order: the handlers of the
    book router and of the user router leave the order collection as it
    was, and [POST /order] only appends to it. *)
Theorem orders_are_never_rewritten
        (bcrypt_hash : string -> nat -> string -> string)
        (bcrypt_compare : string -> string -> bool)
        (iu : bool) (ref : string) (q : Query) (u : BookUpdate)
        (oid : ObjectId) (s1 s2 s3 s4 : string) (z1 z2 : Z) (flag : bool)
        (bs : list string) (db : Db) :
  OrderModel (after (get_books db)) = OrderModel db /\
  OrderModel (after (get_books_id ref db)) = OrderModel db /\
  OrderModel (after (get_book_category iu (q_category q) db)) = OrderModel db /\
  OrderModel (after (post_books oid s1 s2 s3 z1 z2 db)) = OrderModel db /\
  OrderModel (after (patch_books_id ref u db)) = OrderModel db /\
  OrderModel (after (delete_books_id ref db)) = OrderModel db /\
  OrderModel (after (register bcrypt_hash oid s1 s2 s3 s4 flag db)) = OrderModel db /\
  OrderModel (after (login bcrypt_compare s1 s2 db)) = OrderModel db /\
  OrderModel (snd (get_orders db)) = OrderModel db /\
  exists added, OrderModel (snd (post_order oid s1 bs db)) = OrderModel db ++ added.
Proof.
  repeat split.
  - rewrite get_books_id_run.
    destruct (parseObjectId ref); [|reflexivity].
    destruct (find _ (BookModel db)); reflexivity.
  - rewrite patch_books_id_run.
    destruct (parseObjectId ref); [|reflexivity].
    destruct (find _ (BookModel db)); reflexivity.
  - rewrite delete_books_id_run. destruct (parseObjectId ref); reflexivity.
  - rewrite login_run.
    destruct (find _ (UserModel db)) as [x|]; [|reflexivity].
    destruct (bcrypt_compare s2 (u_password x)); reflexivity.
  - now rewrite get_orders_run.
  - destruct (Nat.eq_dec (status (fst (post_order oid s1 bs db))) 201) as [E|N].
    + destruct (post_order_201 oid s1 bs db E)
        as [uid [x [b [bid [_ [_ [_ [_ [_ R]]]]]]]]].
      rewrite R. eexists. reflexivity.
    + rewrite (post_order_not_201 oid s1 bs db N). exists [].
      now rewrite app_nil_r.
Qed.

(* ================================================================== *)
(** * Placing an order: what is stored and listed *)
(* ================================================================== *)



(** An order that was placed is listed: with unique identifiers among
    the users and among the books, after a [POST /order] of an existing
    user for one existing book, [GET /orders] answers with the records of
    the orders stored before, unchanged, followed by the record of the new
    order, which carries the user's and the book's documents and the
    book's price as [totalAmount]. *)
Theorem post_order_then_get_orders
        (oid : ObjectId) (u b : string) (usr : User) (bk : Book) (db : Db) :
  NoDup (map u_id (UserModel db)) ->
  uniqueBookIds db ->
  In usr (UserModel db) -> parseObjectId u = Some (u_id usr) ->
  In bk (BookModel db) -> parseObjectId b = Some (b_id bk) ->
  fst (get_orders (snd (post_order oid u [b] db))) =
  mkResponse 200
    (PopulatedOrders
       (map (populated db) (OrderModel db)
          ++ [mkPopulated oid (Some usr) (Some bk) (Some (b_price bk))])).
Proof.
  intros Hnu Hnb Hu Eu Hb Eb.
  assert (Hru : resolvesUser db u) by (exists usr; auto).
  assert (Hrb : resolvesBook db b) by (exists bk; auto).
  destruct (post_order_one_book oid u b db Hnb Hru Hrb) as [uid [bid [Eu' [Eb' R]]]].
  rewrite Eu in Eu'. inversion Eu'; subst uid.
  rewrite Eb in Eb'. inversion Eb'; subst bid.
  rewrite R. cbn [snd]. rewrite get_orders_response.
  unfold insertOrder. cbn [OrderModel]. rewrite map_app. cbn [map].
  f_equal. f_equal. f_equal.
  unfold populated. cbn [_id user books totalAmount lookupUser lookupBook
                         UserModel BookModel].
  rewrite (find_unique_user (UserModel db) usr Hnu Hu).
  rewrite (find_unique (BookModel db) bk Hnb Hb).
  unfold sumPrices, priceOf. cbn [fold_right].
  rewrite Eb, (find_unique (BookModel db) bk Hnb Hb).
  now rewrite Z.add_0_r.
Qed.

Lemma library_users_unique : NoDup (map u_id (UserModel library)).
Proof. constructor; [intros []|constructor]. Defined.

Lemma post_order_then_get_orders_witness :
  fst (get_orders (snd (post_order O1 U1 [B2] library))) =
  mkResponse 200
    (PopulatedOrders [mkPopulated O1 (Some alice) (Some book2) (Some 60%Z)]).
Proof.
  apply (post_order_then_get_orders O1 U1 B2 alice book2 library).
  - exact library_users_unique.
  - exact library_unique.
  - now left.
  - reflexivity.
  - right. now left.
  - reflexivity.
Defined.
